(** * Discriminative classifiers notebook (content/c3/code 2.ipynb)

    A shallow embedding of the notebook's code cells.  The notebook is
    straight-line glue code around numpy, scikit-learn and seaborn: the
    only computation it carries out itself is the separability check of
    the Fisher discriminant cell, written with Python's built-in [min]
    and [max], comparison of numpy float64 scalars and boolean-mask
    indexing.

    Definitions come first:
    - [Float64]: numpy float64 scalars as the standard library's
      [spec_float], with IEEE-754 comparison.
    - [Py]: the Python and numpy primitives of the separability check.
    - [Notebook]: the cells, statement by statement, in a state-and-error
      monad over a store of names and a heap of ndarray objects; calls
      into the external libraries go through one oracle that receives
      the heap and may change it.
    - [Sample]: a small library instance on which the model runs.
    - [Properties]: the predicates the statements below are about.

    Then the facts: order properties of float64 comparison, of [min],
    [max] and mask indexing, a frame rule for the statements, and the
    statements about the separability check ([Separability]) and about
    the estimators that are fitted ([Session]); further properties of
    the check ([CheckFacts]: when it returns, what it means with NaN,
    what leaves it unchanged) and of a run ([SessionFacts]: what is
    called, printed and left bound). *)

From Stdlib Require Import ZArith Lia Floats.SpecFloat.
From stdpp Require Import base option list gmap strings.

Local Open Scope Z_scope.

(** ** IEEE-754 binary64 values and their comparison *)

Module Float64.

(** numpy's float64 scalar. *)
Definition float64 : Type := spec_float.

Definition isnan (x : float64) : bool :=
  match x with S754_nan => true | _ => false end.

(** [x < y], [x > y] and [x == y] on float64 scalars. *)
Definition lt (x y : float64) : bool := SFltb x y.
Definition gt (x y : float64) : bool := lt y x.
Definition eq (x y : float64) : bool := SFeqb x y.

(** Python's [float(z)]: round to nearest even at 53 bits of precision. *)
Definition of_Z (z : Z) : float64 := binary_normalize 53 1024 z 0 false.

End Float64.

(** ** Python and numpy primitives used by the cells *)

Module Py.
Import Float64.

(** Built-in [min(iterable)]: the first item is the running result and a
    later item replaces it when [item < result]; an empty iterable raises
    [ValueError] ([None]). *)
Definition min_step (cur item : float64) : float64 :=
  if lt item cur then item else cur.

Definition py_min (xs : list float64) : option float64 :=
  match xs with
  | [] => None
  | x :: rest => Some (foldl min_step x rest)
  end.

(** Built-in [max(iterable)]: a later item replaces the running result
    when [item > result]. *)
Definition max_step (cur item : float64) : float64 :=
  if gt item cur then item else cur.

Definition py_max (xs : list float64) : option float64 :=
  match xs with
  | [] => None
  | x :: rest => Some (foldl max_step x rest)
  end.

(** [y == c] on an integer ndarray: the element-wise boolean mask. *)
Definition labels_eq (y : list Z) (c : Z) : list bool :=
  (fun v => Z.eqb v c) <$> y.

(** The entries of [xs] at the positions where [mask] is true, in order,
    for a mask that has one entry per entry of [xs]. *)
Fixpoint select_where {A} (xs : list A) (mask : list bool) : option (list A) :=
  match xs, mask with
  | [], [] => Some []
  | x :: xs', b :: mask' =>
      rest ← select_where xs' mask';
      Some (if b then x :: rest else rest)
  | _, _ => None
  end.

(** [a[mask]] for a one-dimensional array and a boolean mask.  numpy
    compares the length of a boolean index with the length of the array
    only when the index has entries: a mask of length zero selects
    nothing from any array, and a mask with entries whose length is not
    that of the array raises [IndexError] ([None]). *)
Definition mask_select {A} (xs : list A) (mask : list bool) : option (list A) :=
  match mask with
  | [] => Some []
  | _ :: _ => select_where xs mask
  end.

(** [(min(f0) > max(f1)) | (max(f0) < min(f1))]: both operands of [|] are
    evaluated, left to right. *)
Definition separated (f0 f1 : list float64) : option bool :=
  mn0 ← py_min f0;
  mx1 ← py_max f1;
  mx0 ← py_max f0;
  mn1 ← py_min f1;
  Some (gt mn0 mx1 || lt mx0 mn1).

(** The two class partitions of the last cell and its check, for the
    projected values [f] and the label vector [y]:
    [f0 = f[y == 0]], [f1 = f[y == 1]]. *)
Definition separated_by_class (f : list float64) (y : list Z) : option bool :=
  f0 ← mask_select f (labels_eq y 0);
  f1 ← mask_select f (labels_eq y 1);
  separated f0 f1.

End Py.

(** ** The notebook *)

Module Notebook.
Import Float64 Py.

(** *** Objects and values *)

(** Addresses of ndarray objects. *)
Definition loc : Type := positive.

(** The ndarray objects the cells handle: the feature matrices, float64
    vectors (projections, rows of [coef_]) and integer label vectors. *)
Inductive ndarray :=
| Float2D (rows : list (list float64))
| Float1D (xs : list float64)
| Int1D (ys : list Z).

(** Python numbers given as hyperparameters: [10**5] is an [int], [1e5] a
    [float]. *)
Inductive pynum :=
| PyInt (z : Z)
| PyFloat (x : float64).

(** The literal [1e5]: the binary64 number 100000.0. *)
Definition float_1e5 : float64 := of_Z (10 ^ 5).

(** [z < x] for an [int] and a [float]: Python compares the exact values. *)
Definition Z_lt_float (z : Z) (x : float64) : bool :=
  match x with
  | S754_nan => false
  | S754_infinity s => negb s
  | S754_zero _ => z <? 0
  | S754_finite s m e =>
      let v := if s then Z.neg m else Z.pos m in
      if 0 <=? e then z <? v * 2 ^ e else z * 2 ^ (- e) <? v
  end.

Definition float_lt_Z (x : float64) (z : Z) : bool :=
  match x with
  | S754_nan => false
  | S754_infinity s => s
  | S754_zero _ => 0 <? z
  | S754_finite s m e =>
      let v := if s then Z.neg m else Z.pos m in
      if 0 <=? e then v * 2 ^ e <? z else v <? z * 2 ^ (- e)
  end.

Definition pynum_ltb (a b : pynum) : bool :=
  match a, b with
  | PyInt x, PyInt y => x <? y
  | PyInt x, PyFloat y => Z_lt_float x y
  | PyFloat x, PyInt y => float_lt_Z x y
  | PyFloat x, PyFloat y => lt x y
  end.

(** The estimator constructors of the notebook with the keyword arguments
    they are given; [multi_class] is [None] where the call leaves it out. *)
Inductive estimator :=
| LogisticRegression (C max_iter : pynum) (multi_class : option string)
| Perceptron
| LinearDiscriminantAnalysis (n_components : Z).

(** An estimator object: its hyperparameters and, once fitted, the
    address of its [coef_] array (the one attribute the notebook reads). *)
Record model := Model { params : estimator; coef_ : option loc }.

Inductive value :=
| VNone
| VBool (b : bool)
| VFloat (x : float64)
| VArray (l : loc)
| VBunch (data target : loc)
| VEstimator (m : model)
| VOpaque (handle : positive)
| VPair (a b : value).

(** *** Calls into the external libraries *)

Inductive libcall :=
| load_breast_cancer
| load_wine
| fit (m : model) (X y : loc)
| predict (m : model) (X : loc)
| predict_proba (m : model) (X : loc)
| score (m : model) (X y : loc)
| np_dot (a b : loc)
| plotting (fn : string) (args : list value).

(** scikit-learn, numpy and seaborn are outside the repository: a call
    receives the whole heap and returns a heap and a result, or raises
    ([None]). *)
Class Library : Type :=
  lib_call : libcall -> gmap loc ndarray -> option (gmap loc ndarray * value).

(** *** State of a notebook session *)

Record state := State {
  heap : gmap loc ndarray;
  env : gmap string value;
  stdout : list (string * value);
  calls : list libcall
}.

Definition init : state :=
  {| heap := ∅; env := ∅; stdout := []; calls := [] |}.

(** Statements run in a state and may raise; nothing is caught. *)
Definition M (A : Type) : Type := state -> option (A * state).

#[global] Instance M_ret : MRet M := fun A a s => Some (a, s).
#[global] Instance M_bind : MBind M := fun A B f m s =>
  match m s with
  | Some (a, s') => f a s'
  | None => None
  end.

Definition lift {A} (o : option A) : M A := fun s =>
  match o with Some a => Some (a, s) | None => None end.

Definition lookup_name (x : string) : M value := fun s =>
  match env s !! x with Some v => Some (v, s) | None => None end.

Definition assign (x : string) (v : value) : M unit := fun s =>
  Some (tt, {| heap := heap s; env := <[x := v]> (env s);
               stdout := stdout s; calls := calls s |}).

Definition read (l : loc) : M ndarray := fun s =>
  match heap s !! l with Some a => Some (a, s) | None => None end.

Definition alloc (a : ndarray) : M loc := fun s =>
  let l := fresh (dom (heap s)) in
  Some (l, {| heap := <[l := a]> (heap s); env := env s;
              stdout := stdout s; calls := calls s |}).

Definition print (label : string) (v : value) : M unit := fun s =>
  Some (tt, {| heap := heap s; env := env s;
               stdout := stdout s ++ [(label, v)]; calls := calls s |}).

Definition call `{Library} (c : libcall) : M value := fun s =>
  match lib_call c (heap s) with
  | Some (h, v) =>
      Some (v, {| heap := h; env := env s;
                  stdout := stdout s; calls := calls s ++ [c] |})
  | None => None
  end.

Arguments lookup_name x%_string.
Arguments assign x%_string v.
Arguments print label%_string v.
Arguments plotting fn%_string args.

Definition as_array (v : value) : option loc :=
  match v with VArray l => Some l | _ => None end.

Definition as_estimator (v : value) : option model :=
  match v with VEstimator m => Some m | _ => None end.

Definition as_pair (v : value) : option (value * value) :=
  match v with VPair a b => Some (a, b) | _ => None end.

(** [b[key]] on a dataset Bunch. *)
Definition getitem (b : value) (key : string) : option value :=
  match b with
  | VBunch data target =>
      if String.eqb key "data" then Some (VArray data)
      else if String.eqb key "target" then Some (VArray target)
      else None
  | _ => None
  end.
Arguments getitem b key%_string.

Definition array_name (x : string) : M loc := v ← lookup_name x; lift (as_array v).
Definition estimator_name (x : string) : M model :=
  v ← lookup_name x; lift (as_estimator v).
Arguments array_name x%_string.
Arguments estimator_name x%_string.

Definition read_float1d (l : loc) : M (list float64) :=
  a ← read l; lift (match a with Float1D xs => Some xs | _ => None end).
Definition read_float2d (l : loc) : M (list (list float64)) :=
  a ← read l; lift (match a with Float2D rows => Some rows | _ => None end).
Definition read_int1d (l : loc) : M (list Z) :=
  a ← read l; lift (match a with Int1D ys => Some ys | _ => None end).

(** Run statements in sequence from a state; [None] when one raises. *)
Fixpoint run (stmts : list (M unit)) (s : state) : option state :=
  match stmts with
  | [] => Some s
  | stmt :: rest =>
      match stmt s with
      | Some (_, s') => run rest s'
      | None => None
      end
  end.

Section Cells.
Context `{Library}.

(** [name = loader()] *)
Definition load_stmt (name : string) (loader : libcall) : M unit :=
  b ← call loader; assign name b.

(** [name = bunch[key]] *)
Definition getitem_stmt (name bunch key : string) : M unit :=
  b ← lookup_name bunch; v ← lift (getitem b key); assign name v.

(** [name = Estimator(...)] *)
Definition new_stmt (name : string) (e : estimator) : M unit :=
  assign name (VEstimator {| params := e; coef_ := None |}).

(** [name.fit(X, y)]: the estimator object is updated in place. *)
Definition fit_stmt (name X y : string) : M unit :=
  m ← estimator_name name;
  lX ← array_name X;
  ly ← array_name y;
  r ← call (fit m lX ly);
  m' ← lift (as_estimator r);
  assign name (VEstimator m').

(** [out = name.predict(X)] *)
Definition predict_stmt (out name X : string) : M unit :=
  m ← estimator_name name;
  lX ← array_name X;
  r ← call (predict m lX);
  assign out r.

(** [out = name.predict_proba(X)] *)
Definition predict_proba_stmt (out name X : string) : M unit :=
  m ← estimator_name name;
  lX ← array_name X;
  r ← call (predict_proba m lX);
  assign out r.

(** [print(f'Training accuracy: {name.score(X, y)}')] *)
Definition print_score_stmt (name X y : string) : M unit :=
  m ← estimator_name name;
  lX ← array_name X;
  ly ← array_name y;
  r ← call (score m lX ly);
  print "Training accuracy: " r.

(** [out = np.dot(X_cancer, lda.coef_[0])[y_cancer == c]]: row 0 of
    [coef_] is handed to [np.dot] as an array of its own, and the
    selected entries of the product form a new array. *)
Definition project_class_stmt (out : string) (c : Z) : M unit :=
  lX ← array_name "X_cancer";
  m ← estimator_name "lda";
  lcoef ← lift (coef_ m);
  rows ← read_float2d lcoef;
  row ← lift (rows !! 0%nat);
  lw ← alloc (Float1D row);
  r ← call (np_dot lX lw);
  lf ← lift (as_array r);
  f ← read_float1d lf;
  ly ← array_name "y_cancer";
  y ← read_int1d ly;
  fc ← lift (mask_select f (labels_eq y c));
  l ← alloc (Float1D fc);
  assign out (VArray l).

(** [print('Separated:', (min(f0) > max(f1)) | (max(f0) < min(f1)))] *)
Definition print_separated_stmt : M unit :=
  l0 ← array_name "f0";
  f0 ← read_float1d l0;
  l1 ← array_name "f1";
  f1 ← read_float1d l1;
  b ← lift (separated f0 f1);
  print "Separated:" (VBool b).

(** The plotting statements; their keyword arguments (figure size, bins,
    colours, labels, texts) are presentation only and left out.

    [fig, ax = plt.subplots(figsize = (7,5))] *)
Definition subplots_stmt : M unit :=
  r ← call (plotting "plt.subplots" []);
  p ← lift (as_pair r);
  _ ← assign "fig" p.1;
  assign "ax" p.2.

(** [sns.distplot(name, ...)] *)
Definition distplot_stmt (name : string) : M unit :=
  v ← lookup_name name;
  _ ← call (plotting "sns.distplot" [v]);
  mret tt.

(** [ax.method(...)] *)
Definition ax_stmt (method : string) : M unit :=
  ax ← lookup_name "ax";
  _ ← call (plotting method [ax]);
  mret tt.

(** [sns.despine()] *)
Definition despine_stmt : M unit :=
  _ ← call (plotting "sns.despine" []);
  mret tt.

Definition binary_params : estimator :=
  LogisticRegression (PyInt (10 ^ 5)) (PyFloat float_1e5) None.

Definition multiclass_params : estimator :=
  LogisticRegression (PyInt (10 ^ 5)) (PyInt (10 ^ 4)) (Some "multinomial"%string).

(** The code cells, in order, one entry per statement. *)
Definition cell_load : list (M unit) :=
  [ load_stmt "cancer" load_breast_cancer;
    getitem_stmt "X_cancer" "cancer" "data";
    getitem_stmt "y_cancer" "cancer" "target";
    load_stmt "wine" load_wine;
    getitem_stmt "X_wine" "wine" "data";
    getitem_stmt "y_wine" "wine" "target" ].

Definition cell_binary_fit : list (M unit) :=
  [ new_stmt "binary_model" binary_params;
    fit_stmt "binary_model" "X_cancer" "y_cancer" ].

Definition cell_binary_predict : list (M unit) :=
  [ predict_stmt "y_hats" "binary_model" "X_cancer";
    predict_proba_stmt "p_hats" "binary_model" "X_cancer";
    print_score_stmt "binary_model" "X_cancer" "y_cancer" ].

Definition cell_multiclass_fit : list (M unit) :=
  [ new_stmt "multiclass_model" multiclass_params;
    fit_stmt "multiclass_model" "X_wine" "y_wine" ].

Definition cell_multiclass_predict : list (M unit) :=
  [ predict_stmt "y_hats" "multiclass_model" "X_wine";
    predict_proba_stmt "p_hats" "multiclass_model" "X_wine";
    print_score_stmt "multiclass_model" "X_wine" "y_wine" ].

Definition cell_perceptron : list (M unit) :=
  [ new_stmt "perceptron" Perceptron;
    fit_stmt "perceptron" "X_cancer" "y_cancer" ].

Definition cell_lda : list (M unit) :=
  [ new_stmt "lda" (LinearDiscriminantAnalysis 1);
    fit_stmt "lda" "X_cancer" "y_cancer";
    project_class_stmt "f0" 0;
    project_class_stmt "f1" 1;
    print_separated_stmt ].

Definition cell_plot : list (M unit) :=
  [ subplots_stmt;
    distplot_stmt "f0";
    distplot_stmt "f1";
    ax_stmt "ax.set_xlabel";
    ax_stmt "ax.set_title";
    ax_stmt "ax.legend";
    despine_stmt ].

(** Everything that runs once the two datasets are loaded. *)
Definition after_load : list (M unit) :=
  cell_binary_fit ++ cell_binary_predict ++
  cell_multiclass_fit ++ cell_multiclass_predict ++
  cell_perceptron ++ cell_lda ++ cell_plot.

Definition notebook : list (M unit) := cell_load ++ after_load.

End Cells.

End Notebook.

(** ** A small library instance

    Two-feature datasets and stand-ins for the estimators, with which the
    notebook model runs from start to end; used to exercise the
    statements proved about every library. *)

Module Sample.
Import Float64 Py Notebook.

Definition num (z : Z) : float64 := of_Z z.

Definition X_a : list (list float64) :=
  [ [num 1; num 5]; [num 4; num 1]; [num 2; num 7]; [num 6; num 3] ].
Definition y_a : list Z := [0; 1; 0; 1].

Definition X_b : list (list float64) :=
  [ [num 1; num 1]; [num 2; num 5]; [num 9; num 4] ].
Definition y_b : list Z := [0; 1; 2].

Definition new_array (h : gmap loc ndarray) (a : ndarray)
  : gmap loc ndarray * loc :=
  let l := fresh (dom h) in (<[l := a]> h, l).

(** Row-by-vector product in binary64, summed left to right. *)
Definition dot_row (w row : list float64) : float64 :=
  foldl (SFadd 53 1024) (S754_zero false) (zip_with (SFmul 53 1024) row w).

Definition rows_of (h : gmap loc ndarray) (l : loc) : option (list (list float64)) :=
  match h !! l with Some (Float2D rows) => Some rows | _ => None end.

Definition library : Library := fun c h =>
  match c with
  | load_breast_cancer =>
      let '(h1, d) := new_array h (Float2D X_a) in
      let '(h2, t) := new_array h1 (Int1D y_a) in
      Some (h2, VBunch d t)
  | load_wine =>
      let '(h1, d) := new_array h (Float2D X_b) in
      let '(h2, t) := new_array h1 (Int1D y_b) in
      Some (h2, VBunch d t)
  | fit m X y =>
      let '(h1, l) := new_array h (Float2D [[num 1; num 0]]) in
      Some (h1, VEstimator {| params := params m; coef_ := Some l |})
  | predict m X =>
      rows ← rows_of h X;
      let '(h1, l) := new_array h (Int1D ((fun _ => 0) <$> rows)) in
      Some (h1, VArray l)
  | predict_proba m X =>
      rows ← rows_of h X;
      let '(h1, l) := new_array h (Float2D ((fun _ => [num 1; num 0]) <$> rows)) in
      Some (h1, VArray l)
  | score m X y => Some (h, VFloat (num 1))
  | np_dot a b =>
      rows ← rows_of h a;
      match h !! b with
      | Some (Float1D w) =>
          let '(h1, l) := new_array h (Float1D (dot_row w <$> rows)) in
          Some (h1, VArray l)
      | _ => None
      end
  | plotting fn args =>
      if String.eqb fn "plt.subplots"
      then Some (h, VPair (VOpaque 1) (VOpaque 2))
      else Some (h, VNone)
  end.

(** The state of a session with this library at the end of the
    notebook. *)
Definition at_end : state :=
  default init (run (notebook (H := library)) init).

End Sample.

(** ** Properties stated about the notebook *)

Module Properties.
Import Float64 Py Notebook.

(** The values of class [c]: the projected value of every sample whose
    label is [c], computed by pairing values with labels. *)
Definition class_values (f : list float64) (y : list Z) (c : Z) : list float64 :=
  fst <$> filter (fun p => snd p = c) (zip f y).

(** Every projected value of class [c] exceeds every one of class [d]. *)
Definition class_above (c d : Z) (f : list float64) (y : list Z) : Prop :=
  forall i j a b,
    y !! i = Some c -> y !! j = Some d ->
    f !! i = Some a -> f !! j = Some b -> gt a b = true.

(** The names bound to the two feature matrices and label vectors. *)
Definition dataset_names : list string :=
  ["X_cancer"; "y_cancer"; "X_wine"; "y_wine"]%string.

(** [fit] calls on a [LogisticRegression] estimator. *)
Definition is_logistic_fit (c : libcall) : bool :=
  match c with
  | fit {| params := LogisticRegression _ _ _ |} _ _ => true
  | _ => false
  end.

(** [s'] keeps every object of [s] and the bindings of the dataset names. *)
Definition extends (s s' : state) : Prop :=
  heap s ⊆ heap s' /\
  forall x, x ∈ dataset_names -> env s' !! x = env s !! x.

(** From [s] to [s'] the dataset names keep their bindings and no
    logistic regression was fitted. *)
Definition quiet (s s' : state) : Prop :=
  (forall x, x ∈ dataset_names -> env s' !! x = env s !! x) /\
  exists cs, calls s' = calls s ++ cs /\ List.filter is_logistic_fit cs = [].

(** From [s] to [s'] the dataset names keep their bindings. *)
Definition keeps (s s' : state) : Prop :=
  forall x, x ∈ dataset_names -> env s' !! x = env s !! x.

(** A computation relates the state it starts in to the one it ends in. *)
Definition respects (R : relation state) {A} (m : M A) : Prop :=
  forall s a s', m s = Some (a, s') -> R s s'.

(** Relations on states that the statements without library calls and
    without assignments to dataset names respect. *)
Class Frame (R : relation state) : Prop := {
  frame_preorder :: PreOrder R;
  frame_alloc s a :
    R s {| heap := <[fresh (dom (heap s)) := a]> (heap s); env := env s;
           stdout := stdout s; calls := calls s |};
  frame_print s label v :
    R s {| heap := heap s; env := env s;
           stdout := stdout s ++ [(label, v)]; calls := calls s |};
  frame_assign s x v :
    x ∉ dataset_names ->
    R s {| heap := heap s; env := <[x := v]> (env s);
           stdout := stdout s; calls := calls s |}
}.

Section Contracts.
Context `{Library}.

(** A call respects [R]. *)
Definition call_respects (R : relation state) (c : libcall) : Prop :=
  forall s h v,
    lib_call c (heap s) = Some (h, v) ->
    R s {| heap := h; env := env s; stdout := stdout s;
           calls := calls s ++ [c] |}.

(** The contract of a library that does not write to the arrays it is
    given: after a call every object is still there, unchanged. *)
Definition read_only_library : Prop :=
  forall c h h' v, lib_call c h = Some (h', v) -> h ⊆ h'.

(** A loader returns a Bunch whose [data] is a feature matrix and whose
    [target] is a label vector, both on the heap it returns. *)
Definition loader_returns_dataset (c : libcall) : Prop :=
  forall h h' v,
    lib_call c h = Some (h', v) ->
    exists d t rows ys,
      v = VBunch d t /\
      h' !! d = Some (Float2D rows) /\
      h' !! t = Some (Int1D ys).

(** [np.dot] is a function of the contents of its two arguments. *)
Definition dot_functional : Prop :=
  forall h1 h2 a1 b1 a2 b2 h1' h2' l1 l2,
    h1 !! a1 = h2 !! a2 -> h1 !! b1 = h2 !! b2 ->
    lib_call (np_dot a1 b1) h1 = Some (h1', VArray l1) ->
    lib_call (np_dot a2 b2) h2 = Some (h2', VArray l2) ->
    h1' !! l1 = h2' !! l2.

(** The library returned [v] for the call [c]. *)
Definition returns (c : libcall) (v : value) : Prop :=
  exists h h', lib_call c h = Some (h', v).

(** [np.dot] was called on [a] and on [lw], an array that held row 0 of
    the [coef_] of the estimator [m] in the heap the call received. *)
Definition dot_with_coef_row (m : model) (a lw : loc) : Prop :=
  exists lcoef rows w h h' v,
    coef_ m = Some lcoef /\
    h !! lcoef = Some (Float2D rows) /\
    rows !! 0%nat = Some w /\
    h !! lw = Some (Float1D w) /\
    lib_call (np_dot a lw) h = Some (h', v).

End Contracts.

End Properties.

(** ** Order facts about float64 comparison *)

Module Float64Facts.
Import Float64.

Ltac by_cases_on_compare :=
  repeat match goal with
  | H : context [Z.compare ?a ?b] |- _ => destruct (Z.compare_spec a b)
  | |- context [Z.compare ?a ?b] => destruct (Z.compare_spec a b)
  | H : context [Pos.compare_cont Eq ?a ?b] |- _ =>
      change (Pos.compare_cont Eq a b) with (Pos.compare a b) in H;
      destruct (Pos.compare_spec a b)
  | |- context [Pos.compare_cont Eq ?a ?b] =>
      change (Pos.compare_cont Eq a b) with (Pos.compare a b);
      destruct (Pos.compare_spec a b)
  end.

Ltac float_order :=
  unfold lt, gt, eq, SFltb, SFeqb, isnan;
  repeat match goal with x : float64 |- _ => destruct x end;
  simpl; try discriminate; try reflexivity;
  repeat match goal with s : bool |- _ => destruct s end;
  simpl; try discriminate; try reflexivity;
  by_cases_on_compare; simpl; intros;
  try discriminate; try reflexivity; try lia.

Lemma lt_not_nan_l x y : lt x y = true -> isnan x = false.
Proof. float_order. Qed.

Lemma lt_not_nan_r x y : lt x y = true -> isnan y = false.
Proof. float_order. Qed.

Lemma eq_not_nan_l x y : eq x y = true -> isnan x = false.
Proof. float_order. Qed.

Lemma eq_not_nan_r x y : eq x y = true -> isnan y = false.
Proof. float_order. Qed.

Lemma lt_irrefl x : lt x x = false.
Proof. float_order. Qed.

Lemma lt_trans x y z : lt x y = true -> lt y z = true -> lt x z = true.
Proof. float_order. Qed.

Lemma lt_asym x y : lt x y = true -> lt y x = false.
Proof. float_order. Qed.

(** [x <= y < z] with [x <= y] read as "not [y < x]"; sound only when [x]
    is a number. *)
Lemma nlt_lt_trans x y z :
  isnan x = false -> lt y x = false -> lt y z = true -> lt x z = true.
Proof. float_order. Qed.

(** [x < y <= z]. *)
Lemma lt_nlt_trans x y z :
  isnan z = false -> lt x y = true -> lt z y = false -> lt x z = true.
Proof. float_order. Qed.

Lemma eq_not_lt x y : eq x y = true -> lt x y = false.
Proof. float_order. Qed.

Lemma eq_not_gt x y : eq x y = true -> lt y x = false.
Proof. float_order. Qed.

Lemma lt_eq_trans x y z : lt x y = true -> eq y z = true -> lt x z = true.
Proof. float_order. Qed.

Lemma eq_lt_trans x y z : eq x y = true -> lt y z = true -> lt x z = true.
Proof. float_order. Qed.

Lemma lt_eq_trans_r x y z : lt x y = true -> eq z y = true -> lt x z = true.
Proof. float_order. Qed.

End Float64Facts.

(** ** Facts about the Python primitives *)

Module PyFacts.
Import Float64 Py Properties Float64Facts.

(** *** Facts about [mask_select] *)

Lemma select_where_is_Some {A} (xs : list A) mask :
  length xs = length mask <-> is_Some (select_where xs mask).
Proof.
  revert mask; induction xs as [|x xs IH]; intros [|b mask]; simpl;
    try (split; [discriminate|by intros [? ?]]).
  - split; [by eexists|done].
  - rewrite Nat.succ_inj_wd, IH.
    destruct (select_where xs mask) as [r|]; simpl;
      (split; intros [? ?]; [by eexists|done]).
Qed.

Lemma elem_of_select_where {A} (xs : list A) mask r v :
  select_where xs mask = Some r ->
  v ∈ r <-> exists i, xs !! i = Some v /\ mask !! i = Some true.
Proof.
  revert mask r; induction xs as [|x xs IH]; intros [|b mask] r;
    simpl; try discriminate.
  - intros [= <-]. split; [by intros ?%elem_of_nil|].
    intros (i & Hi & _). by rewrite lookup_nil in Hi.
  - destruct (select_where xs mask) as [r'|] eqn:Hr; simpl; [|discriminate].
    intros [= <-]. specialize (IH mask r' Hr).
    split.
    + destruct b.
      * intros [->|Hin]%elem_of_cons; [by exists 0%nat|].
        apply IH in Hin as (i & ? & ?). by exists (S i).
      * intros Hin. apply IH in Hin as (i & ? & ?). by exists (S i).
    + intros ([|i] & Hx & Hm); simpl in *.
      * injection Hx as ->. injection Hm as ->. apply elem_of_cons; by left.
      * assert (v ∈ r') by (apply IH; eauto).
        destruct b; [apply elem_of_cons; by right|done].
Qed.

(** A mask with entries is checked against the array. *)
Lemma mask_select_cons {A} (xs : list A) b mask :
  mask_select xs (b :: mask) = select_where xs (b :: mask).
Proof. done. Qed.

(** Masking an array by a mask of its length is [select_where]. *)
Lemma mask_select_aligned {A} (xs : list A) mask :
  length xs = length mask -> mask_select xs mask = select_where xs mask.
Proof. by destruct xs, mask. Qed.

Lemma mask_select_is_Some {A} (xs : list A) mask :
  length xs = length mask -> is_Some (mask_select xs mask).
Proof.
  intros Hlen. rewrite mask_select_aligned by done.
  by apply select_where_is_Some.
Qed.

(** The one mask of another length that is accepted is the empty one. *)
Lemma mask_select_length {A} (xs : list A) mask r :
  mask_select xs mask = Some r -> mask = [] \/ length xs = length mask.
Proof.
  destruct mask as [|b mask]; [by left|].
  rewrite mask_select_cons. intros Hr. right.
  apply select_where_is_Some. by eexists.
Qed.

Lemma elem_of_mask_select {A} (xs : list A) mask r v :
  mask_select xs mask = Some r ->
  v ∈ r <-> exists i, xs !! i = Some v /\ mask !! i = Some true.
Proof.
  destruct mask as [|b mask]; [|apply elem_of_select_where].
  intros [= <-]. split; [by intros ?%elem_of_nil|].
  intros (i & _ & Hi). by rewrite lookup_nil in Hi.
Qed.

Lemma labels_eq_lookup (y : list Z) (c : Z) (i : nat) :
  labels_eq y c !! i = Some true <-> y !! i = Some c.
Proof.
  unfold labels_eq. rewrite list_lookup_fmap.
  destruct (y !! i) as [v|]; simpl; [|split; discriminate].
  split.
  - intros [= Hv]. apply Z.eqb_eq in Hv. by subst.
  - intros [= ->]. by rewrite Z.eqb_refl.
Qed.

(** The partition by class, by positions. *)
Lemma elem_of_class_partition (f : list float64) (y : list Z) c r v :
  mask_select f (labels_eq y c) = Some r ->
  v ∈ r <-> exists i, f !! i = Some v /\ y !! i = Some c.
Proof.
  intros Hr. rewrite (elem_of_mask_select _ _ _ _ Hr).
  split; intros (i & ? & Hi); exists i; split; auto;
    by apply labels_eq_lookup.
Qed.

(** *** Facts about [py_min] and [py_max] *)

Lemma foldl_min_elem x rest : foldl min_step x rest ∈ x :: rest.
Proof.
  revert x; induction rest as [|y rest IH]; intros x; simpl.
  - apply elem_of_cons; by left.
  - unfold min_step at 2. specialize (IH (if lt y x then y else x)).
    apply elem_of_cons in IH as [->|IH].
    + destruct (lt y x); rewrite !elem_of_cons; auto.
    + rewrite !elem_of_cons; auto.
Qed.

Lemma foldl_max_elem x rest : foldl max_step x rest ∈ x :: rest.
Proof.
  revert x; induction rest as [|y rest IH]; intros x; simpl.
  - apply elem_of_cons; by left.
  - unfold max_step at 2. specialize (IH (if gt y x then y else x)).
    apply elem_of_cons in IH as [->|IH].
    + destruct (gt y x); rewrite !elem_of_cons; auto.
    + rewrite !elem_of_cons; auto.
Qed.

Lemma py_min_elem xs m : py_min xs = Some m -> m ∈ xs.
Proof. destruct xs; simpl; [done|]. intros [= <-]. apply foldl_min_elem. Qed.

Lemma py_max_elem xs m : py_max xs = Some m -> m ∈ xs.
Proof. destruct xs; simpl; [done|]. intros [= <-]. apply foldl_max_elem. Qed.

(** The running minimum only goes down. *)
Lemma foldl_min_below x rest v :
  lt v x = false -> lt v (foldl min_step x rest) = false.
Proof.
  revert x; induction rest as [|y rest IH]; intros x Hx; simpl; [done|].
  apply IH. unfold min_step. destruct (lt y x) eqn:Hyx; [|done].
  destruct (lt v y) eqn:Hvy; [|done].
  by rewrite (lt_trans _ _ _ Hvy Hyx) in Hx.
Qed.

Lemma foldl_max_above x rest v :
  lt x v = false -> lt (foldl max_step x rest) v = false.
Proof.
  revert x; induction rest as [|y rest IH]; intros x Hx; simpl; [done|].
  apply IH. unfold max_step, gt. destruct (lt x y) eqn:Hxy; [|done].
  destruct (lt y v) eqn:Hyv; [|done].
  by rewrite (lt_trans _ _ _ Hxy Hyv) in Hx.
Qed.

(** No item is below the result of [min], none above the result of [max]. *)
Lemma py_min_lower_bound xs m v :
  py_min xs = Some m -> v ∈ xs -> lt v m = false.
Proof.
  destruct xs as [|x rest]; simpl; [done|]. intros [= <-].
  revert x; induction rest as [|y rest IH]; intros x Hv; simpl.
  - apply list_elem_of_singleton in Hv. subst v. apply lt_irrefl.
  - apply elem_of_cons in Hv as [Hv|Hv].
    + subst v. apply foldl_min_below. unfold min_step.
      destruct (lt y x) eqn:Hyx; [by apply lt_asym|apply lt_irrefl].
    + apply elem_of_cons in Hv as [Hv|Hv].
      * subst v. apply foldl_min_below. unfold min_step.
        destruct (lt y x) eqn:Hyx; [apply lt_irrefl|done].
      * apply IH. apply elem_of_cons; by right.
Qed.

Lemma py_max_upper_bound xs m v :
  py_max xs = Some m -> v ∈ xs -> lt m v = false.
Proof.
  destruct xs as [|x rest]; simpl; [done|]. intros [= <-].
  revert x; induction rest as [|y rest IH]; intros x Hv; simpl.
  - apply list_elem_of_singleton in Hv. subst v. apply lt_irrefl.
  - apply elem_of_cons in Hv as [Hv|Hv].
    + subst v. apply foldl_max_above. unfold max_step, gt.
      destruct (lt x y) eqn:Hxy; [by apply lt_asym|apply lt_irrefl].
    + apply elem_of_cons in Hv as [Hv|Hv].
      * subst v. apply foldl_max_above. unfold max_step, gt.
        destruct (lt x y) eqn:Hxy; [apply lt_irrefl|done].
      * apply IH. apply elem_of_cons; by right.
Qed.

Lemma py_min_is_Some xs : xs <> [] -> is_Some (py_min xs).
Proof. destruct xs; [done|]. intros _. by eexists. Qed.

Lemma py_max_is_Some xs : xs <> [] -> is_Some (py_max xs).
Proof. destruct xs; [done|]. intros _. by eexists. Qed.

(** Boolean-mask indexing by [y == c] computes the values of class [c]. *)
Lemma mask_select_class_values (f : list float64) (y : list Z) c :
  length f = length y ->
  mask_select f (labels_eq y c) = Some (class_values f y c).
Proof.
  intros Hlen. rewrite mask_select_aligned
    by (unfold labels_eq; by rewrite length_fmap).
  revert y Hlen; induction f as [|x f IH]; intros [|v y] Hlen;
    simpl in *; try discriminate; [done|].
  rewrite IH by congruence. simpl. unfold class_values. simpl.
  rewrite filter_cons. simpl.
  destruct (Z.eqb_spec v c); case_decide; simpl; done.
Qed.

(** With the same items seen, the running minimum and maximum are both
    NaN or both numbers, and the maximum is not below the minimum. *)
Lemma foldl_min_max_consistent rest lo hi :
  isnan lo = isnan hi -> lt hi lo = false ->
  isnan (foldl min_step lo rest) = isnan (foldl max_step hi rest) /\
  lt (foldl max_step hi rest) (foldl min_step lo rest) = false.
Proof.
  revert lo hi; induction rest as [|y rest IH]; intros lo hi Hnan Hlt;
    simpl; [done|].
  unfold min_step at 2 4, max_step at 2 4, gt.
  destruct (lt y lo) eqn:Hylo, (lt hi y) eqn:Hhiy; apply IH;
    try done; try apply lt_irrefl.
  - rewrite (lt_not_nan_l _ _ Hylo).
    apply lt_not_nan_r in Hylo. congruence.
  - rewrite (lt_not_nan_r _ _ Hhiy).
    apply lt_not_nan_l in Hhiy. congruence.
Qed.

Lemma min_max_consistent xs mn mx :
  py_min xs = Some mn -> py_max xs = Some mx ->
  isnan mn = isnan mx /\ lt mx mn = false.
Proof.
  destruct xs as [|x rest]; simpl; [done|]. intros [= <-] [= <-].
  apply foldl_min_max_consistent; [done|apply lt_irrefl].
Qed.

(** A class that occurs among the labels has a value. *)
Lemma class_values_nonempty (f : list float64) (y : list Z) c :
  length f = length y -> c ∈ y -> class_values f y c <> [].
Proof.
  intros Hlen Hc Hnil.
  pose proof (mask_select_class_values f y c Hlen) as Hsel.
  rewrite Hnil in Hsel.
  apply list_elem_of_lookup in Hc as [i Hi].
  destruct (lookup_lt_is_Some_2 f i) as [v Hv].
  { rewrite Hlen. by eapply lookup_lt_Some. }
  assert (v ∈ @nil float64) as Hin%elem_of_nil; [|done].
  apply (elem_of_class_partition f y c [] v Hsel). eauto.
Qed.

Lemma elem_of_class_values (f : list float64) (y : list Z) c v :
  length f = length y ->
  v ∈ class_values f y c <-> exists i, f !! i = Some v /\ y !! i = Some c.
Proof.
  intros Hlen. apply elem_of_class_partition.
  by apply mask_select_class_values.
Qed.

End PyFacts.

(** ** Facts about the notebook model *)

Module NotebookFacts.
Import Float64 Py Notebook Properties.

#[local] Arguments run : simpl never.

(** *** Inversion of the monad and its primitives *)

Lemma bind_Some {A B} (m : M A) (f : A -> M B) s b s' :
  (m ≫= f) s = Some (b, s') <->
  exists a s1, m s = Some (a, s1) /\ f a s1 = Some (b, s').
Proof.
  unfold mbind, M_bind. destruct (m s) as [[a s1]|]; split.
  - intros Hf. by exists a, s1.
  - by intros (? & ? & [= <- <-] & ?).
  - done.
  - by intros (? & ? & ? & ?).
Qed.

Lemma lookup_name_Some x s v s' :
  lookup_name x s = Some (v, s') -> env s !! x = Some v /\ s' = s.
Proof.
  unfold lookup_name. destruct (env s !! x); [|done]. by intros [= <- <-].
Qed.

Lemma lift_Some {A} (o : option A) s a s' :
  lift o s = Some (a, s') -> o = Some a /\ s' = s.
Proof. destruct o; [|done]. by intros [= <- <-]. Qed.

Lemma read_Some l s a s' :
  read l s = Some (a, s') -> heap s !! l = Some a /\ s' = s.
Proof. unfold read. destruct (heap s !! l); [|done]. by intros [= <- <-]. Qed.

Lemma ret_Some {A} (a : A) s b s' :
  mret (M := M) a s = Some (b, s') -> b = a /\ s' = s.
Proof. by intros [= <- <-]. Qed.

Lemma call_Some `{Library} c s v s' :
  call c s = Some (v, s') ->
  exists h, lib_call c (heap s) = Some (h, v) /\
    s' = {| heap := h; env := env s; stdout := stdout s;
            calls := calls s ++ [c] |}.
Proof.
  unfold call. destruct (lib_call c (heap s)) as [[h r]|]; [|done].
  intros [= <- <-]. by exists h.
Qed.

Lemma as_array_Some v l : as_array v = Some l -> v = VArray l.
Proof. destruct v; try done. by intros [= ->]. Qed.

Lemma as_estimator_Some v m : as_estimator v = Some m -> v = VEstimator m.
Proof. destruct v; try done. by intros [= ->]. Qed.

Lemma as_pair_Some v p : as_pair v = Some p -> v = VPair p.1 p.2.
Proof. destruct v; try done. by intros [= <-]. Qed.

Lemma getitem_data_Some b v :
  getitem b "data" = Some v -> exists d t, b = VBunch d t /\ v = VArray d.
Proof. destruct b; try done. simpl. intros [= <-]. eauto. Qed.

Lemma getitem_target_Some b v :
  getitem b "target" = Some v -> exists d t, b = VBunch d t /\ v = VArray t.
Proof. destruct b; try done. simpl. intros [= <-]. eauto. Qed.

Lemma run_cons_Some st rest s s' :
  run (st :: rest) s = Some s' ->
  exists s1, st s = Some (tt, s1) /\ run rest s1 = Some s'.
Proof.
  unfold run; fold run. destruct (st s) as [[[] s1]|]; [|done].
  intros. by exists s1.
Qed.

Lemma run_nil_Some s s' : run [] s = Some s' -> s' = s.
Proof. by intros [= <-]. Qed.

Lemma run_app stmts1 stmts2 s :
  run (stmts1 ++ stmts2) s = run stmts1 s ≫= run stmts2.
Proof.
  revert s; induction stmts1 as [|st stmts1 IH]; intros s; [done|].
  unfold run; fold run. simpl app. unfold run; fold run.
  destruct (st s) as [[[] s1]|]; [apply IH|done].
Qed.

Lemma run_app_Some stmts1 stmts2 s s' :
  run (stmts1 ++ stmts2) s = Some s' ->
  exists s1, run stmts1 s = Some s1 /\ run stmts2 s1 = Some s'.
Proof.
  rewrite run_app. destruct (run stmts1 s) as [s1|]; [|done].
  intros. by exists s1.
Qed.

Ltac inv_M :=
  repeat match goal with
  | H : (_ ≫= _) _ = Some _ |- _ => apply bind_Some in H as (? & ? & ? & H)
  | H : lookup_name _ _ = Some _ |- _ => apply lookup_name_Some in H as [? ->]
  | H : lift _ _ = Some _ |- _ => apply lift_Some in H as [? ->]
  | H : read _ _ = Some _ |- _ => apply read_Some in H as [? ->]
  | H : @mret M _ _ _ _ = Some _ |- _ => apply ret_Some in H as [_ ->]
  | H : call _ _ = Some _ |- _ => apply call_Some in H as (? & ? & ->)
  | H : as_array _ = Some _ |- _ => apply as_array_Some in H as ->
  | H : as_estimator _ = Some _ |- _ => apply as_estimator_Some in H as ->
  | H : as_pair _ = Some _ |- _ => apply as_pair_Some in H as ->
  | H : getitem _ "data" = Some _ |- _ =>
      apply getitem_data_Some in H as (? & ? & -> & ->)
  | H : getitem _ "target" = Some _ |- _ =>
      apply getitem_target_Some in H as (? & ? & -> & ->)
  | H : assign _ _ _ = Some _ |- _ => injection H as <-
  | H : print _ _ _ = Some _ |- _ => injection H as <-
  | H : alloc _ _ = Some _ |- _ => injection H as <- <-
  end.

Ltac unfold_stmts H :=
  unfold load_stmt, getitem_stmt, new_stmt, fit_stmt, predict_stmt,
    predict_proba_stmt, print_score_stmt, project_class_stmt,
    print_separated_stmt, subplots_stmt, distplot_stmt, ax_stmt,
    despine_stmt, array_name, estimator_name, read_float1d, read_float2d,
    read_int1d in H.

(** Run the next statement of [H : run (st :: rest) s = Some s']. *)
Ltac step H :=
  let Hst := fresh "Hst" in
  apply run_cons_Some in H as (? & Hst & H);
  unfold_stmts Hst; inv_M; cbn [env heap stdout calls] in *;
  simplify_map_eq.

(** *** Relations respected by the statements *)

Section Respects.
Context (R : relation state) `{!Frame R}.

Lemma respects_bind {A B} (m : M A) (f : A -> M B) :
  respects R m -> (forall a, respects R (f a)) -> respects R (m ≫= f).
Proof.
  intros Hm Hf s b s' (a & s1 & H1 & H2)%bind_Some.
  etrans; [by eapply Hm|by eapply Hf].
Qed.

Lemma respects_ret {A} (a : A) : respects R (mret a).
Proof. by intros s ? s' [= <- <-]. Qed.

Lemma respects_lift {A} (o : option A) : respects R (lift o).
Proof. intros s ? s' [_ ->]%lift_Some. done. Qed.

Lemma respects_lookup_name x : respects R (lookup_name x).
Proof. intros s ? s' [_ ->]%lookup_name_Some. done. Qed.

Lemma respects_read l : respects R (read l).
Proof. intros s ? s' [_ ->]%read_Some. done. Qed.

Lemma respects_print label v : respects R (print label v).
Proof. intros s ? s' [= <- <-]. apply frame_print. Qed.

Lemma respects_alloc a : respects R (alloc a).
Proof. intros s ? s' [= <- <-]. apply frame_alloc. Qed.

Lemma respects_assign x v :
  bool_decide (x ∈ dataset_names) = false -> respects R (assign x v).
Proof.
  intros Hx%bool_decide_eq_false s ? s' [= <- <-]. by apply frame_assign.
Qed.

Lemma respects_call `{Library} c : call_respects R c -> respects R (call c).
Proof. intros Hc s v s' (h & Hcall & ->)%call_Some. by eapply Hc. Qed.

Lemma run_respects stmts s s' :
  Forall (respects R) stmts -> run stmts s = Some s' -> R s s'.
Proof.
  intros Hall; revert s; induction Hall as [|st stmts Hst _ IH]; intros s.
  - by intros ->%run_nil_Some.
  - intros (s1 & Hs & Hrun)%run_cons_Some.
    etrans; [by eapply Hst|by apply IH].
Qed.

End Respects.

#[global] Instance extends_frame : Frame extends.
Proof.
  split.
  - split.
    + intros s. by split.
    + intros s1 s2 s3 [Hh He] [Hh' He']. split; [by etrans|].
      intros x Hx. rewrite He', He; auto.
  - intros s a. split; [|done]. simpl.
    apply insert_subseteq, not_elem_of_dom, is_fresh.
  - intros s label v. by split.
  - intros s x v Hx. split; [done|]. simpl.
    intros y Hy. apply lookup_insert_ne. by intros ->.
Qed.

#[global] Instance quiet_frame : Frame quiet.
Proof.
  split.
  - split.
    + intros s. split; [done|]. exists []. by rewrite app_nil_r.
    + intros s1 s2 s3 [He (cs & Hcs & Hf)] [He' (cs' & Hcs' & Hf')]. split.
      * intros x Hx. rewrite He', He; auto.
      * exists (cs ++ cs'). rewrite Hcs', Hcs, app_assoc. split; [done|].
        by rewrite List.filter_app, Hf, Hf'.
  - intros s a. split; [done|]. exists []. by rewrite app_nil_r.
  - intros s label v. split; [done|]. exists []. by rewrite app_nil_r.
  - intros s x v Hx. split.
    + simpl. intros y Hy. apply lookup_insert_ne. by intros ->.
    + exists []. by rewrite app_nil_r.
Qed.

#[global] Instance keeps_frame : Frame keeps.
Proof.
  split.
  - split; [by intros s x Hx|].
    intros s1 s2 s3 He He' x Hx. rewrite He', He; auto.
  - by intros s a x Hx.
  - by intros s label v x Hx.
  - intros s x v Hx y Hy. simpl. apply lookup_insert_ne. by intros ->.
Qed.

(** Prove [respects R m] for a statement [m]; [call_tac] proves that its
    library calls respect [R]. *)
Ltac respects_with R call_tac :=
  unfold new_stmt, fit_stmt, predict_stmt, predict_proba_stmt,
    print_score_stmt, project_class_stmt, print_separated_stmt,
    subplots_stmt, distplot_stmt, ax_stmt, despine_stmt,
    array_name, estimator_name, read_float1d, read_float2d, read_int1d;
  repeat first
    [ apply (respects_ret R) | apply (respects_lift R)
    | apply (respects_lookup_name R) | apply (respects_read R)
    | apply (respects_print R) | apply (respects_alloc R)
    | apply (respects_assign R); reflexivity
    | apply (respects_call R); call_tac
    | apply (respects_bind R); [|intros ?] ].

Lemma dataset_name_elem x :
  bool_decide (x ∈ dataset_names) = true -> x ∈ dataset_names.
Proof. apply bool_decide_eq_true. Qed.

Section Statements.
Context `{Library}.

Lemma call_respects_quiet c :
  is_logistic_fit c = false -> call_respects quiet c.
Proof.
  intros Hc s h v _. split; [done|]. exists [c]. split; [done|].
  simpl. by rewrite Hc.
Qed.

Lemma call_respects_keeps c : call_respects keeps c.
Proof. by intros s h v _ x Hx. Qed.

Lemma call_respects_extends c :
  read_only_library -> call_respects extends c.
Proof. intros Hro s h v Hcall. split; [by eapply Hro|done]. Qed.

(** Every statement after the load cell keeps the loaded objects and the
    dataset names, provided the library is read-only. *)
Lemma after_load_extends_each :
  read_only_library -> Forall (respects extends) after_load.
Proof.
  intros Hro.
  unfold after_load, cell_binary_fit, cell_binary_predict,
    cell_multiclass_fit, cell_multiclass_predict, cell_perceptron,
    cell_lda, cell_plot.
  repeat apply Forall_cons_2; try apply Forall_nil_2;
    respects_with extends ltac:(by apply call_respects_extends).
Qed.

(** Whatever the library does, no statement after the load cell assigns
    to a dataset name. *)
Lemma after_load_keeps_each : Forall (respects keeps) after_load.
Proof.
  unfold after_load, cell_binary_fit, cell_binary_predict,
    cell_multiclass_fit, cell_multiclass_predict, cell_perceptron,
    cell_lda, cell_plot.
  repeat apply Forall_cons_2; try apply Forall_nil_2;
    respects_with keeps ltac:(apply call_respects_keeps).
Qed.

(** *** The cells, run from an arbitrary state *)

(** The load cell: the two loaders are called in turn and the six names
    are bound to the two Bunches and their arrays. *)
Lemma cell_load_inv s0 s1 :
  run cell_load s0 = Some s1 ->
  exists h1 h2 dA tA dB tB,
    lib_call load_breast_cancer (heap s0) = Some (h1, VBunch dA tA) /\
    lib_call load_wine h1 = Some (h2, VBunch dB tB) /\
    s1 = {| heap := h2;
            env := <["y_wine"%string := VArray tB]>
                   (<["X_wine"%string := VArray dB]>
                   (<["wine"%string := VBunch dB tB]>
                   (<["y_cancer"%string := VArray tA]>
                   (<["X_cancer"%string := VArray dA]>
                   (<["cancer"%string := VBunch dA tA]> (env s0))))));
            stdout := stdout s0;
            calls := (calls s0 ++ [load_breast_cancer]) ++ [load_wine] |}.
Proof.
  unfold cell_load. intros Hrun.
  do 6 step Hrun. apply run_nil_Some in Hrun as ->.
  by do 6 eexists.
Qed.

(** [name = Estimator(...)] followed by [name.fit(X, y)]: the library is
    asked to fit the unfitted estimator on the arrays bound to [X], [y]. *)
Lemma new_fit_inv name e X y s s' :
  name <> X -> name <> y ->
  run [new_stmt name e; fit_stmt name X y] s = Some s' ->
  exists lX ly h m',
    env s !! X = Some (VArray lX) /\
    env s !! y = Some (VArray ly) /\
    lib_call (fit {| params := e; coef_ := None |} lX ly) (heap s)
      = Some (h, VEstimator m') /\
    s' = {| heap := h;
            env := <[name := VEstimator m']>
                   (<[name := VEstimator {| params := e; coef_ := None |}]>
                    (env s));
            stdout := stdout s;
            calls := calls s ++ [fit {| params := e; coef_ := None |} lX ly] |}.
Proof.
  intros HX Hy Hrun.
  do 2 step Hrun. apply run_nil_Some in Hrun as ->.
  by do 4 eexists.
Qed.

Lemma new_fit_quiet name e X y s s' :
  name ∉ dataset_names -> name <> X -> name <> y ->
  is_logistic_fit (fit {| params := e; coef_ := None |} 1%positive 1%positive)
    = false ->
  run [new_stmt name e; fit_stmt name X y] s = Some s' -> quiet s s'.
Proof.
  intros Hname HX Hy He (lX & ly & h & m' & _ & _ & _ & ->)%new_fit_inv;
    [|done..].
  split; simpl.
  - intros x Hx. rewrite !lookup_insert_ne; [done|by intros ->..].
  - eexists. split; [done|]. simpl in *. by destruct e.
Qed.

Lemma statements_quiet :
  Forall (respects quiet)
    (cell_binary_predict ++ cell_multiclass_predict ++
     [project_class_stmt "f0" 0; project_class_stmt "f1" 1;
      print_separated_stmt] ++ cell_plot).
Proof.
  unfold cell_binary_predict, cell_multiclass_predict, cell_plot.
  repeat apply Forall_cons_2; try apply Forall_nil_2;
    respects_with quiet ltac:(by apply call_respects_quiet).
Qed.

(** *** The separability check in the session *)

Ltac inv_ndarray :=
  repeat match goal with
  | H : match ?a with _ => _ end = Some _ |- _ =>
      destruct a; try discriminate H; injection H as ->
  end.

Lemma project_class_inv out c s s' :
  project_class_stmt out c s = Some (tt, s') ->
  exists lX m lcoef rows w h lf f ly y fc,
    env s !! "X_cancer"%string = Some (VArray lX) /\
    env s !! "lda"%string = Some (VEstimator m) /\
    coef_ m = Some lcoef /\
    heap s !! lcoef = Some (Float2D rows) /\
    rows !! 0%nat = Some w /\
    lib_call (np_dot lX (fresh (dom (heap s))))
      (<[fresh (dom (heap s)) := Float1D w]> (heap s)) = Some (h, VArray lf) /\
    h !! lf = Some (Float1D f) /\
    env s !! "y_cancer"%string = Some (VArray ly) /\
    h !! ly = Some (Int1D y) /\
    mask_select f (labels_eq y c) = Some fc /\
    s' = {| heap := <[fresh (dom h) := Float1D fc]> h;
            env := <[out := VArray (fresh (dom h))]> (env s);
            stdout := stdout s;
            calls := calls s ++ [np_dot lX (fresh (dom (heap s)))] |}.
Proof.
  intros Hs. unfold_stmts Hs. inv_M. cbn [env heap stdout calls] in *.
  inv_ndarray. by do 11 eexists.
Qed.

Lemma print_separated_inv s s' :
  print_separated_stmt s = Some (tt, s') ->
  exists l0 f0 l1 f1 b,
    env s !! "f0"%string = Some (VArray l0) /\
    heap s !! l0 = Some (Float1D f0) /\
    env s !! "f1"%string = Some (VArray l1) /\
    heap s !! l1 = Some (Float1D f1) /\
    separated f0 f1 = Some b /\
    s' = {| heap := heap s; env := env s;
            stdout := stdout s ++ [("Separated:"%string, VBool b)];
            calls := calls s |}.
Proof.
  intros Hs. unfold_stmts Hs. inv_M. inv_ndarray. by do 5 eexists.
Qed.

Lemma insert_fresh_subseteq (h : gmap loc ndarray) a :
  h ⊆ <[fresh (dom h) := a]> h.
Proof. apply insert_subseteq, not_elem_of_dom, is_fresh. Qed.

(** The three statements of the check, run where [X_cancer] and
    [y_cancer] refer to arrays: both partitions are taken from the same
    projection [f] (the product is computed twice, on unchanged
    arguments), they end up bound to [f0] and [f1], and the line printed
    is their check. *)
Lemma lda_check_prints s s' lX aX ly y :
  read_only_library -> dot_functional ->
  env s !! "X_cancer"%string = Some (VArray lX) ->
  heap s !! lX = Some aX ->
  env s !! "y_cancer"%string = Some (VArray ly) ->
  heap s' !! ly = Some (Int1D y) ->
  run [project_class_stmt "f0" 0; project_class_stmt "f1" 1;
       print_separated_stmt] s = Some s' ->
  exists m lcoef rows w h lf f l0 l1 f0 f1 b,
    env s !! "lda"%string = Some (VEstimator m) /\
    coef_ m = Some lcoef /\
    heap s !! lcoef = Some (Float2D rows) /\
    rows !! 0%nat = Some w /\
    lib_call (np_dot lX (fresh (dom (heap s))))
      (<[fresh (dom (heap s)) := Float1D w]> (heap s)) = Some (h, VArray lf) /\
    h !! lf = Some (Float1D f) /\
    mask_select f (labels_eq y 0) = Some f0 /\
    mask_select f (labels_eq y 1) = Some f1 /\
    separated f0 f1 = Some b /\
    heap s ⊆ heap s' /\
    heap s' !! l0 = Some (Float1D f0) /\
    heap s' !! l1 = Some (Float1D f1) /\
    env s' = <["f1"%string := VArray l1]>
               (<["f0"%string := VArray l0]> (env s)) /\
    stdout s' = stdout s ++ [("Separated:"%string, VBool b)].
Proof.
  intros Hro Hdot HlX HaX Hly Hay Hrun.
  apply run_cons_Some in Hrun as (s1 & Hp0 & Hrun).
  apply run_cons_Some in Hrun as (s2 & Hp1 & Hrun).
  apply run_cons_Some in Hrun as (s3 & Hpr & ->%run_nil_Some).
  apply project_class_inv in Hp0
    as (lX0 & m & lcoef & rows & w & hA & lfA & fA & ly0 & yA & f0 &
        HX & Hm & Hcoef & Hrows & Hw & HdotA & HfA & Hy & HyA & Hsel0 & ->).
  apply project_class_inv in Hp1
    as (lX' & m' & lcoef' & rows' & w' & hB & lfB & fB & ly' & yB & f1 &
        HX' & Hm' & Hcoef' & Hrows' & Hw' & HdotB & HfB & Hy' & HyB & Hsel1 & ->).
  apply print_separated_inv in Hpr
    as (l0 & f0' & l1 & f1' & b & Hl0 & Hf0 & Hl1 & Hf1 & Hsep & ->).
  cbn [env heap stdout calls] in *.
  rewrite lookup_insert_ne in HX', Hm', Hy' by done.
  rewrite lookup_insert_eq in Hl1.
  rewrite lookup_insert_ne, lookup_insert_eq in Hl0 by done.
  rewrite HlX in HX, HX'. rewrite Hm in Hm'. rewrite Hly in Hy, Hy'.
  injection HX as <-. injection HX' as <-. injection Hm' as <-.
  injection Hy as <-. injection Hy' as <-.
  injection Hl0 as <-. injection Hl1 as <-.
  rewrite Hcoef in Hcoef'. injection Hcoef' as <-.
  set (hA0 := <[fresh (dom (heap s)) := Float1D w]> (heap s)) in *.
  set (hA1 := <[fresh (dom hA) := Float1D f0]> hA) in *.
  set (hB0 := <[fresh (dom hA1) := Float1D w']> hA1) in *.
  set (hB1 := <[fresh (dom hB) := Float1D f1]> hB) in *.
  assert (heap s ⊆ hA0) as S1 by apply insert_fresh_subseteq.
  assert (hA0 ⊆ hA) as S2 by (by eapply Hro).
  assert (hA ⊆ hA1) as S3 by apply insert_fresh_subseteq.
  assert (hA1 ⊆ hB0) as S4 by apply insert_fresh_subseteq.
  assert (hB0 ⊆ hB) as S5 by (by eapply Hro).
  assert (hB ⊆ hB1) as S6 by apply insert_fresh_subseteq.
  assert (heap s ⊆ hA1) as SA by (by do 2 (etrans; [eassumption|])).
  assert (hA1 ⊆ hB1) as SB by (by do 2 (etrans; [eassumption|])).
  assert (Float2D rows' = Float2D rows) as [= ->].
  { pose proof (lookup_weaken _ _ _ _ Hrows SA) as Hr. congruence. }
  rewrite Hw in Hw'. injection Hw' as <-.
  assert (Int1D yB = Int1D y) as [= ->].
  { pose proof (lookup_weaken _ _ _ _ HyB S6). congruence. }
  assert (Int1D yA = Int1D y) as [= ->].
  { pose proof (lookup_weaken _ _ _ _ HyA (transitivity S3 SB)). congruence. }
  assert (Float1D fB = Float1D fA) as [= ->].
  { assert (hA !! lfA = hB !! lfB) as Heq; [|congruence].
    eapply Hdot; [| |exact HdotA|exact HdotB].
    - rewrite (lookup_weaken _ _ _ _ HaX S1).
      by rewrite (lookup_weaken _ _ _ _ HaX (transitivity SA S4)).
    - unfold hA0, hB0. by rewrite !lookup_insert_eq. }
  assert (hA1 !! fresh (dom hA) = Some (Float1D f0)) as Hin0
    by apply lookup_insert_eq.
  assert (Float1D f0' = Float1D f0) as [= ->].
  { pose proof (lookup_weaken _ _ _ _ Hin0 SB). congruence. }
  assert (Float1D f1' = Float1D f1) as [= ->].
  { unfold hB1 in Hf1. rewrite lookup_insert_eq in Hf1. congruence. }
  exists m, lcoef, rows, w, hA, lfA, fA, (fresh (dom hA)), (fresh (dom hB)),
    f0, f1, b.
  do 9 (split; [done|]).
  split; [by etrans|]. by do 3 (split; [done|]).
Qed.

(** The plot cell prints nothing and binds [fig] and [ax] only. *)
Lemma cell_plot_inv s s' :
  run cell_plot s = Some s' ->
  stdout s' = stdout s /\
  exists fig ax,
    env s' = <["ax"%string := ax]> (<["fig"%string := fig]> (env s)).
Proof.
  unfold cell_plot. intros Hrun.
  do 7 step Hrun. apply run_nil_Some in Hrun as ->.
  split; [done|]. by do 2 eexists.
Qed.

(** X11. In a run of the whole notebook, with a library that does not
    write to existing arrays, whose loader of dataset A returns a feature
    matrix and a label vector and whose [np.dot] is a function of the
    contents of its arguments: [f0] and [f1] end up bound to the entries
    with label 0 and with label 1 of one projection [f]; [f] is what
    [np.dot] returns for the feature matrix of dataset A and row 0 of
    the [coef_] of the estimator bound to [lda], the one that the fit of
    [LinearDiscriminantAnalysis(n_components = 1)] on dataset A
    returned; and the last line printed is the check of [f0] against
    [f1], which is the check of [f] against the labels of dataset A. *)
Theorem notebook_prints_separated s :
  read_only_library -> dot_functional ->
  loader_returns_dataset load_breast_cancer ->
  run notebook init = Some s ->
  exists lX ly X y ml lcoef rows w lw h h' lf f l0 l1 f0 f1 b,
    returns load_breast_cancer (VBunch lX ly) /\
    (env s !! "X_cancer"%string = Some (VArray lX) /\
     heap s !! lX = Some (Float2D X)) /\
    (env s !! "y_cancer"%string = Some (VArray ly) /\
     heap s !! ly = Some (Int1D y)) /\
    returns (fit {| params := LinearDiscriminantAnalysis 1; coef_ := None |}
               lX ly) (VEstimator ml) /\
    (env s !! "lda"%string = Some (VEstimator ml) /\
     coef_ ml = Some lcoef /\
     heap s !! lcoef = Some (Float2D rows) /\
     rows !! 0%nat = Some w) /\
    (h !! lX = Some (Float2D X) /\
     h !! lw = Some (Float1D w) /\
     lib_call (np_dot lX lw) h = Some (h', VArray lf) /\
     h' !! lf = Some (Float1D f)) /\
    (env s !! "f0"%string = Some (VArray l0) /\
     heap s !! l0 = Some (Float1D f0) /\
     mask_select f (labels_eq y 0) = Some f0) /\
    (env s !! "f1"%string = Some (VArray l1) /\
     heap s !! l1 = Some (Float1D f1) /\
     mask_select f (labels_eq y 1) = Some f1) /\
    separated f0 f1 = Some b /\
    separated_by_class f y = Some b /\
    last (stdout s) = Some ("Separated:"%string, VBool b).
Proof.
  intros Hro Hdot HA.
  set (before :=
    cell_binary_fit ++ cell_binary_predict ++ cell_multiclass_fit ++
    cell_multiclass_predict ++ cell_perceptron).
  set (ldafit := [new_stmt "lda" (LinearDiscriminantAnalysis 1);
                  fit_stmt "lda" "X_cancer" "y_cancer"]).
  set (check := [project_class_stmt "f0" 0; project_class_stmt "f1" 1;
                 print_separated_stmt]).
  assert (Hsplit : after_load = before ++ ldafit ++ check ++ cell_plot)
    by reflexivity.
  unfold notebook. intros (s1 & Hload & Hrun)%run_app_Some.
  pose proof (after_load_extends_each Hro) as Hall.
  rewrite Hsplit in Hrun, Hall.
  apply Forall_app in Hall as [Hall1 Hall].
  apply Forall_app in Hall as [_ Hall].
  apply Forall_app in Hall as [_ Hall4].
  apply run_app_Some in Hrun as (s2 & Hbefore & Hrun).
  apply run_app_Some in Hrun as (s3 & Hfit & Hrun).
  apply run_app_Some in Hrun as (s4 & Hcheck & Hplot).
  apply (run_respects extends) in Hbefore as [Hh12 He12]; [|done].
  pose proof (run_respects extends _ _ _ Hall4 Hplot) as [Hh4 _].
  apply cell_plot_inv in Hplot as (Hout4 & fig & ax & Henv4).
  apply cell_load_inv in Hload
    as (h1 & h2 & dA & tA & dB & tB & HcA & HcB & Hs1).
  destruct (HA _ _ _ HcA) as (? & ? & X & y0 & [= <- <-] & HdA & _).
  pose proof (Hro _ _ _ _ HcB) as Hsub.
  assert (env s2 !! "X_cancer"%string = Some (VArray dA)) as HX2.
  { rewrite He12, Hs1 by by apply dataset_name_elem.
    cbn [env]. by simplify_map_eq. }
  assert (env s2 !! "y_cancer"%string = Some (VArray tA)) as Hy2.
  { rewrite He12, Hs1 by by apply dataset_name_elem.
    cbn [env]. by simplify_map_eq. }
  assert (heap s2 !! dA = Some (Float2D X)) as HXh.
  { eapply lookup_weaken; [|exact Hh12]. rewrite Hs1. cbn [heap].
    by eapply lookup_weaken. }
  clear Hs1.
  apply new_fit_inv in Hfit
    as (lX & ly & h3 & ml & HlX & Hly & Hcfit & Hs3); [|done..].
  rewrite HX2 in HlX. injection HlX as <-.
  rewrite Hy2 in Hly. injection Hly as <-.
  pose proof (Hro _ _ _ _ Hcfit) as Hh23.
  assert (env s3 !! "X_cancer"%string = Some (VArray dA)) as HX3.
  { rewrite Hs3. cbn [env]. by rewrite !lookup_insert_ne. }
  assert (env s3 !! "y_cancer"%string = Some (VArray tA)) as Hy3.
  { rewrite Hs3. cbn [env]. by rewrite !lookup_insert_ne. }
  assert (env s3 !! "lda"%string = Some (VEstimator ml)) as Hl3.
  { rewrite Hs3. cbn [env]. by rewrite lookup_insert_eq. }
  assert (heap s3 !! dA = Some (Float2D X)) as HXh3.
  { rewrite Hs3. cbn [heap]. by eapply lookup_weaken. }
  clear Hs3.
  assert (exists y, heap s4 !! tA = Some (Int1D y)) as [y Hyh4].
  { apply run_cons_Some in Hcheck as (s' & Hp0 & Hrest).
    apply project_class_inv in Hp0
      as (? & ? & ? & ? & ? & hA & ? & ? & ly & y & ? &
          _ & _ & _ & _ & _ & _ & _ & Hly & Hy & _ & Hs').
    rewrite Hy3 in Hly. injection Hly as <-. exists y.
    pose proof (after_load_extends_each Hro) as Hall'.
    rewrite Hsplit in Hall'.
    apply Forall_app in Hall' as [_ Hall'].
    apply Forall_app in Hall' as [_ Hall'].
    apply Forall_app in Hall' as [Hall' _].
    apply Forall_cons in Hall' as [_ Hall'].
    pose proof (run_respects extends _ _ _ Hall' Hrest) as [Hsub' _].
    eapply lookup_weaken; [|exact Hsub']. rewrite Hs'. cbn [heap].
    eapply lookup_weaken; [exact Hy|apply insert_fresh_subseteq]. }
  destruct (lda_check_prints _ _ _ _ _ _ Hro Hdot HX3 HXh3 Hy3 Hyh4 Hcheck)
    as (m & lcoef & rws & w & h & lf & f & l0 & l1 & f0 & f1 & b &
        Hm & Hcoef & Hrws & Hw & Hcall & Hf & Hsel0 & Hsel1 & Hsep &
        Hh34 & Hf0 & Hf1 & Henv & Hout).
  rewrite Hl3 in Hm. injection Hm as <-.
  exists dA, tA, X, y, ml, lcoef, rws, w, (fresh (dom (heap s3))),
    (<[fresh (dom (heap s3)) := Float1D w]> (heap s3)), h, lf, f,
    l0, l1, f0, f1, b.
  assert (Hend : forall x v, x <> "ax"%string -> x <> "fig"%string ->
            env s4 !! x = Some v -> env s !! x = Some v).
  { intros x v ? ? Hx. rewrite Henv4. by rewrite !lookup_insert_ne. }
  assert (Hmid : forall x v, x <> "f1"%string -> x <> "f0"%string ->
            env s3 !! x = Some v -> env s4 !! x = Some v).
  { intros x v ? ? Hx. rewrite Henv. by rewrite !lookup_insert_ne. }
  split; [by do 2 eexists|].
  split.
  { split; [by apply Hend, Hmid|].
    eapply lookup_weaken; [|exact Hh4].
    by eapply lookup_weaken. }
  split.
  { split; [by apply Hend, Hmid|]. by eapply lookup_weaken. }
  split; [by do 2 eexists|].
  split.
  { split; [by apply Hend, Hmid|]. split; [done|]. split; [|done].
    eapply lookup_weaken; [|exact Hh4].
    by eapply lookup_weaken. }
  split.
  { split; [|split; [apply lookup_insert_eq|done]].
    eapply lookup_weaken; [exact HXh3|apply insert_fresh_subseteq]. }
  split.
  { split; [|split; [by eapply lookup_weaken|done]].
    apply Hend; [done..|]. rewrite Henv.
    by rewrite lookup_insert_ne, lookup_insert_eq. }
  split.
  { split; [|split; [by eapply lookup_weaken|done]].
    apply Hend; [done..|]. rewrite Henv. by rewrite lookup_insert_eq. }
  split; [done|].
  split; [unfold separated_by_class; by rewrite Hsel0, Hsel1|].
  rewrite Hout4, Hout. apply last_snoc.
Qed.

End Statements.

End NotebookFacts.
(** ** The sample library meets the contracts *)

Module SampleFacts.
Import Float64 Py Notebook Properties Sample.

Lemma new_array_extends h a h' l :
  new_array h a = (h', l) -> h ⊆ h' /\ h' !! l = Some a.
Proof.
  unfold new_array. intros [= <- <-]. split.
  - apply insert_subseteq, not_elem_of_dom, is_fresh.
  - apply lookup_insert_eq.
Qed.

#[local] Opaque new_array.

Ltac new_arrays :=
  repeat match goal with
  | H : context [new_array ?h ?a] |- _ =>
      let Hn := fresh "Hn" in
      destruct (new_array h a) as [? ?] eqn:Hn;
      apply new_array_extends in Hn as [? ?]; simpl in H
  end.

Lemma library_read_only : read_only_library (H := library).
Proof.
  intros c h h' v. unfold lib_call, library.
  destruct c; intros Hc; simpl in Hc;
    repeat match goal with
    | H : context [rows_of ?h ?l] |- _ => destruct (rows_of h l); simpl in H
    | H : context [match ?h !! ?l with _ => _ end] |- _ =>
        destruct (h !! l) as [[]|]
    | H : context [if ?b then _ else _] |- _ => destruct b
    end;
    try discriminate; new_arrays;
    injection Hc as <- <-; try done; by etrans.
Qed.

Lemma load_breast_cancer_dataset :
  loader_returns_dataset (H := library) load_breast_cancer.
Proof.
  intros h h' v. unfold lib_call, library. intros Hc. new_arrays.
  injection Hc as <- <-. do 4 eexists. split; [done|].
  split; [by eapply lookup_weaken|done].
Qed.

Lemma library_dot_functional : dot_functional (H := library).
Proof.
  intros h1 h2 a1 b1 a2 b2 h1' h2' l1 l2 Ha Hb.
  unfold lib_call, library, rows_of. rewrite Ha, Hb.
  destruct (h2 !! a2) as [[rows| |]|]; simpl; try done.
  destruct (h2 !! b2) as [[|w|]|]; try done.
  intros H1 H2. new_arrays.
  injection H1 as <- <-. injection H2 as <- <-. congruence.
Qed.

(** What the session prints with this library. *)
Example session_output :
  stdout at_end =
    [ ("Training accuracy: "%string, VFloat (num 1));
      ("Training accuracy: "%string, VFloat (num 1));
      ("Separated:"%string, VBool true) ].
Proof. vm_compute. reflexivity. Qed.

End SampleFacts.

(** ** The separability check *)

Module Separability.
Import Float64 Py Properties Float64Facts PyFacts.

(** C1. For projected values [f] without NaN and labels [y] of the same
    length in which both classes occur, the check of the notebook,
    [(min(f0) > max(f1)) | (max(f0) < min(f1))] on [f0 = f[y == 0]] and
    [f1 = f[y == 1]], returns a boolean; that boolean is the min/max
    comparison over the two classes' values computed on their own, and
    it is true exactly when every value of class 0 exceeds every value
    of class 1 or every value of class 1 exceeds every value of
    class 0. *)
Theorem separated_iff_disjoint_ranges (f : list float64) (y : list Z) :
  length f = length y ->
  Forall (fun v => isnan v = false) f ->
  0 ∈ y -> 1 ∈ y ->
  exists mn0 mx0 mn1 mx1 b,
    py_min (class_values f y 0) = Some mn0 /\
    py_max (class_values f y 0) = Some mx0 /\
    py_min (class_values f y 1) = Some mn1 /\
    py_max (class_values f y 1) = Some mx1 /\
    separated_by_class f y = Some b /\
    b = (gt mn0 mx1 || lt mx0 mn1) /\
    (b = true <-> class_above 0 1 f y \/ class_above 1 0 f y).
Proof.
  intros Hlen Hnan H0 H1.
  set (f0 := class_values f y 0). set (f1 := class_values f y 1).
  destruct (py_min_is_Some f0) as [mn0 Hmn0];
    [by apply class_values_nonempty|].
  destruct (py_max_is_Some f0) as [mx0 Hmx0];
    [by apply class_values_nonempty|].
  destruct (py_min_is_Some f1) as [mn1 Hmn1];
    [by apply class_values_nonempty|].
  destruct (py_max_is_Some f1) as [mx1 Hmx1];
    [by apply class_values_nonempty|].
  exists mn0, mx0, mn1, mx1, (gt mn0 mx1 || lt mx0 mn1).
  do 4 (split; [done|]). split.
  { unfold separated_by_class, separated.
    rewrite !mask_select_class_values by done. simpl.
    fold f0 f1. by rewrite Hmn0, Hmx1, Hmx0, Hmn1. }
  split; [done|].
  assert (Hmem : forall c v, v ∈ class_values f y c ->
            exists i, f !! i = Some v /\ y !! i = Some c).
  { intros c v. by apply elem_of_class_values. }
  assert (Hin : forall c i v, f !! i = Some v -> y !! i = Some c ->
            v ∈ class_values f y c).
  { intros c i v ? ?. apply elem_of_class_values; eauto. }
  assert (Hnum : forall i v, f !! i = Some v -> isnan v = false).
  { intros i v Hv. rewrite Forall_forall in Hnan.
    apply Hnan. by eapply list_elem_of_lookup_2. }
  rewrite orb_true_iff. unfold gt. split.
  - intros [Hgt|Hlt]; [left|right]; intros i j a b Hi Hj Ha Hb; unfold gt.
    + apply (lt_nlt_trans b mn0 a); [by eapply Hnum| |].
      * apply (nlt_lt_trans b mx1 mn0); [by eapply Hnum| |done].
        apply (py_max_upper_bound f1); [done|by eapply Hin].
      * apply (py_min_lower_bound f0); [done|by eapply Hin].
    + apply (lt_nlt_trans b mn1 a); [by eapply Hnum| |].
      * apply (nlt_lt_trans b mx0 mn1); [by eapply Hnum| |done].
        apply (py_max_upper_bound f0); [done|by eapply Hin].
      * apply (py_min_lower_bound f1); [done|by eapply Hin].
  - intros [Habove|Habove]; [left|right].
    + destruct (Hmem 0 mn0 (py_min_elem _ _ Hmn0)) as (i & ? & ?).
      destruct (Hmem 1 mx1 (py_max_elem _ _ Hmx1)) as (j & ? & ?).
      by apply (Habove i j).
    + destruct (Hmem 0 mx0 (py_max_elem _ _ Hmx0)) as (i & ? & ?).
      destruct (Hmem 1 mn1 (py_min_elem _ _ Hmn1)) as (j & ? & ?).
      by apply (Habove j i).
Qed.

(** The comparisons are strict on both sides, so the statement needs the
    values to be numbers: a NaN that is not the first item of its class
    is skipped by [min] and [max]. *)
Example nan_is_skipped :
  separated [Sample.num 1; S754_nan] [Sample.num 0] = Some true.
Proof. reflexivity. Qed.

(** C10. The comparisons are strict: when the minimum of one class equals
    the maximum of the other, the check returns [False]. *)
Theorem touching_ranges_not_separated (f0 f1 : list float64) mn0 mx0 mn1 mx1 :
  py_min f0 = Some mn0 -> py_max f0 = Some mx0 ->
  py_min f1 = Some mn1 -> py_max f1 = Some mx1 ->
  eq mn0 mx1 = true \/ eq mx0 mn1 = true ->
  separated f0 f1 = Some false.
Proof.
  intros Hmn0 Hmx0 Hmn1 Hmx1 Htouch.
  unfold separated. rewrite Hmn0, Hmx1, Hmx0, Hmn1. simpl. f_equal.
  destruct (min_max_consistent _ _ _ Hmn0 Hmx0) as [Hnan0 Hle0].
  destruct (min_max_consistent _ _ _ Hmn1 Hmx1) as [Hnan1 Hle1].
  apply orb_false_iff. unfold gt.
  destruct Htouch as [Heq|Heq].
  - split; [by apply eq_not_gt|].
    destruct (lt mx0 mn1) eqn:Hlt; [|done].
    assert (lt mx0 mx1 = true) as Hlt'.
    { apply (lt_nlt_trans mx0 mn1 mx1); [|done|done].
      rewrite <- Hnan1. by eapply lt_not_nan_r. }
    by rewrite (lt_eq_trans_r _ _ _ Hlt' Heq) in Hle0.
  - split; [|by apply eq_not_lt].
    destruct (lt mx1 mn0) eqn:Hlt; [|done].
    assert (lt mx1 mx0 = true) as Hlt'.
    { apply (lt_nlt_trans mx1 mn0 mx0); [|done|done].
      rewrite <- Hnan0. by eapply lt_not_nan_r. }
    by rewrite (lt_eq_trans _ _ _ Hlt' Heq) in Hle1.
Qed.

End Separability.

(** ** The session: estimator configuration *)

Module Session.
Import Float64 Py Notebook Properties NotebookFacts.

Section AnyLibrary.
Context `{Library}.

(** A [LogisticRegression] is constructed and fitted: the call recorded
    is a fit of the unfitted estimator on the arrays bound to [X], [y]. *)
Lemma new_fit_logistic name C max_iter multi_class X y s s' :
  name ∉ dataset_names -> name <> X -> name <> y ->
  run [new_stmt name (LogisticRegression C max_iter multi_class);
       fit_stmt name X y] s = Some s' ->
  exists lX ly,
    env s !! X = Some (VArray lX) /\
    env s !! y = Some (VArray ly) /\
    (forall x, x ∈ dataset_names -> env s' !! x = env s !! x) /\
    calls s' = calls s ++
      [fit {| params := LogisticRegression C max_iter multi_class;
              coef_ := None |} lX ly].
Proof.
  intros Hname HX Hy (lX & ly & h & m' & HlX & Hly & _ & ->)%new_fit_inv;
    [|done..].
  exists lX, ly. do 2 (split; [done|]). split; [|done].
  intros x Hx. simpl. rewrite !lookup_insert_ne; [done|by intros ->..].
Qed.

(** C7. In a run of the notebook exactly two logistic regressions are
    fitted: the first on the arrays of the Bunch that
    [load_breast_cancer] returned, the second on those of the Bunch that
    [load_wine] returned.  The second is constructed with
    [multi_class = 'multinomial'], with the same [C = 10**5] as the
    first, and with [max_iter = 10**4], which is below the first one's
    [max_iter = 1e5]. *)
Theorem multiclass_fit_configuration s :
  run notebook init = Some s ->
  exists hA hB Xc yc Xw yw,
    lib_call load_breast_cancer (heap init) = Some (hA, VBunch Xc yc) /\
    lib_call load_wine hA = Some (hB, VBunch Xw yw) /\
    List.filter is_logistic_fit (calls s) =
      [ fit {| params := LogisticRegression (PyInt (10 ^ 5))
                           (PyFloat float_1e5) None;
               coef_ := None |} Xc yc;
        fit {| params := LogisticRegression (PyInt (10 ^ 5))
                           (PyInt (10 ^ 4)) (Some "multinomial"%string);
               coef_ := None |} Xw yw ] /\
    pynum_ltb (PyInt (10 ^ 4)) (PyFloat float_1e5) = true.
Proof.
  unfold notebook, after_load.
  change cell_lda with
    ([new_stmt "lda" (LinearDiscriminantAnalysis 1);
      fit_stmt "lda" "X_cancer" "y_cancer"] ++
     [project_class_stmt "f0" 0; project_class_stmt "f1" 1;
      print_separated_stmt]).
  rewrite <- (app_assoc _ _ cell_plot).
  intros (s1 & Hload & Hrun)%run_app_Some.
  apply run_app_Some in Hrun as (s2 & Hfit1 & Hrun).
  apply run_app_Some in Hrun as (s3 & Hpred1 & Hrun).
  apply run_app_Some in Hrun as (s4 & Hfit2 & Hrun).
  apply run_app_Some in Hrun as (s5 & Hpred2 & Hrun).
  apply run_app_Some in Hrun as (s6 & Hperc & Hrun).
  apply run_app_Some in Hrun as (s7 & Hlda & Hrest).
  pose proof statements_quiet as [Hq1 [Hq2 Hq3]%Forall_app]%Forall_app.
  assert (Hnot : forall n : string,
            bool_decide (n ∈ dataset_names) = false -> n ∉ dataset_names)
    by (intros n; apply bool_decide_eq_false).
  apply cell_load_inv in Hload
    as (h1 & h2 & dA & tA & dB & tB & HcA & HcB & ->).
  apply new_fit_logistic in Hfit1
    as (Xc & yc & HXc & Hyc & He2 & Hc2); [|by apply Hnot|done..].
  apply (run_respects quiet) in Hpred1 as [He3 (cs3 & Hc3 & Hf3)]; [|done].
  apply new_fit_logistic in Hfit2
    as (Xw & yw & HXw & Hyw & _ & Hc4); [|by apply Hnot|done..].
  apply (run_respects quiet) in Hpred2 as [_ (cs5 & Hc5 & Hf5)]; [|done].
  apply new_fit_quiet in Hperc as [_ (cs6 & Hc6 & Hf6)];
    [|by apply Hnot|done..].
  apply new_fit_quiet in Hlda as [_ (cs7 & Hc7 & Hf7)];
    [|by apply Hnot|done..].
  apply (run_respects quiet) in Hrest as [_ (cs8 & Hc8 & Hf8)]; [|done].
  rewrite He3, He2 in HXw, Hyw by by apply dataset_name_elem.
  cbn [env] in HXc, Hyc, HXw, Hyw.
  rewrite lookup_insert_ne, lookup_insert_eq in HXw by done.
  rewrite lookup_insert_eq in Hyw.
  rewrite !lookup_insert_ne, lookup_insert_eq in HXc by done.
  rewrite !lookup_insert_ne, lookup_insert_eq in Hyc by done.
  injection HXw as <-. injection Hyw as <-.
  injection HXc as <-. injection Hyc as <-.
  exists h1, h2, dA, tA, dB, tB. do 2 (split; [done|]).
  split; [|done].
  rewrite Hc8, Hc7, Hc6, Hc5, Hc4, Hc3, Hc2. cbn [calls].
  rewrite !List.filter_app, Hf3, Hf5, Hf6, Hf7, Hf8. reflexivity.
Qed.

End AnyLibrary.

End Session.

(** ** The statements at the sample library *)

Module Witnesses.
Import Float64 Py Notebook Properties Sample SampleFacts.
Import Separability Session.

Lemma separated_iff_disjoint_ranges_witness :
  exists mn0 mx0 mn1 mx1 b,
    py_min (class_values [num 1; num 4; num 2; num 6] y_a 0) = Some mn0 /\
    py_max (class_values [num 1; num 4; num 2; num 6] y_a 0) = Some mx0 /\
    py_min (class_values [num 1; num 4; num 2; num 6] y_a 1) = Some mn1 /\
    py_max (class_values [num 1; num 4; num 2; num 6] y_a 1) = Some mx1 /\
    separated_by_class [num 1; num 4; num 2; num 6] y_a = Some b /\
    b = (gt mn0 mx1 || lt mx0 mn1) /\
    (b = true <->
       class_above 0 1 [num 1; num 4; num 2; num 6] y_a \/
       class_above 1 0 [num 1; num 4; num 2; num 6] y_a).
Proof.
  apply (separated_iff_disjoint_ranges [num 1; num 4; num 2; num 6] y_a).
  - reflexivity.
  - repeat constructor.
  - apply list_elem_of_here.
  - apply list_elem_of_further, list_elem_of_here.
Defined.

Lemma touching_ranges_not_separated_witness :
  separated [num 1; num 2] [num 3; num 2] = Some false.
Proof.
  apply (touching_ranges_not_separated
           [num 1; num 2] [num 3; num 2] (num 1) (num 2) (num 2) (num 3));
    [reflexivity..|].
  right. reflexivity.
Defined.

Lemma multiclass_fit_configuration_witness :
  exists hA hB Xc yc Xw yw,
    lib_call (Library := library) load_breast_cancer (heap init)
      = Some (hA, VBunch Xc yc) /\
    lib_call (Library := library) load_wine hA = Some (hB, VBunch Xw yw) /\
    List.filter is_logistic_fit (calls at_end) =
      [ fit {| params := LogisticRegression (PyInt (10 ^ 5))
                           (PyFloat float_1e5) None;
               coef_ := None |} Xc yc;
        fit {| params := LogisticRegression (PyInt (10 ^ 5))
                           (PyInt (10 ^ 4)) (Some "multinomial"%string);
               coef_ := None |} Xw yw ] /\
    pynum_ltb (PyInt (10 ^ 4)) (PyFloat float_1e5) = true.
Proof.
  apply (multiclass_fit_configuration (H := library) at_end).
  vm_compute. reflexivity.
Defined.

End Witnesses.

(** ** More about the separability check *)

Module CheckFacts.
Import Float64 Py Properties Float64Facts PyFacts.

Lemma lt_opp (x y : float64) : lt (SFopp x) (SFopp y) = lt y x.
Proof. float_order. Qed.

Lemma nlt_le (x y : float64) :
  isnan x = false -> isnan y = false -> lt x y = false -> SFleb y x = true.
Proof. unfold SFleb. float_order. Qed.

Lemma lt_nan_l y : lt S754_nan y = false.
Proof. done. Qed.

Lemma lt_nan_r x : lt x S754_nan = false.
Proof. by destruct x. Qed.

Lemma min_step_opp cur item :
  min_step (SFopp cur) (SFopp item) = SFopp (max_step cur item).
Proof. unfold min_step, max_step, gt. rewrite lt_opp. by destruct (lt cur item). Qed.

Lemma max_step_opp cur item :
  max_step (SFopp cur) (SFopp item) = SFopp (min_step cur item).
Proof. unfold min_step, max_step, gt. rewrite lt_opp. by destruct (lt item cur). Qed.

Lemma py_min_opp xs : py_min (SFopp <$> xs) = SFopp <$> py_max xs.
Proof.
  destruct xs as [|x rest]; [done|]. simpl. f_equal.
  revert x; induction rest as [|y rest IH]; intros x; [done|].
  simpl. by rewrite min_step_opp, IH.
Qed.

Lemma py_max_opp xs : py_max (SFopp <$> xs) = SFopp <$> py_min xs.
Proof.
  destruct xs as [|x rest]; [done|]. simpl. f_equal.
  revert x; induction rest as [|y rest IH]; intros x; [done|].
  simpl. by rewrite max_step_opp, IH.
Qed.

(** X5. Negating every projected value (the discriminant direction
    taken with the other sign) does not change the result of the check. *)
Theorem separated_opp (f0 f1 : list float64) :
  separated (SFopp <$> f0) (SFopp <$> f1) = separated f0 f1.
Proof.
  unfold separated. rewrite !py_min_opp, !py_max_opp.
  destruct (py_min f0) as [mn0|], (py_max f1) as [mx1|],
    (py_max f0) as [mx0|], (py_min f1) as [mn1|]; simpl; try done.
  unfold gt. rewrite !lt_opp. by rewrite orb_comm.
Qed.

(** *** When the check returns *)

Lemma separated_unfold (f0 f1 : list float64) mn0 mx0 mn1 mx1 :
  py_min f0 = Some mn0 -> py_max f0 = Some mx0 ->
  py_min f1 = Some mn1 -> py_max f1 = Some mx1 ->
  separated f0 f1 = Some (gt mn0 mx1 || lt mx0 mn1).
Proof. intros H1 H2 H3 H4. unfold separated. by rewrite H1, H4, H2, H3. Qed.

Lemma separated_Some_inv (f0 f1 : list float64) b :
  separated f0 f1 = Some b ->
  exists mn0 mx0 mn1 mx1,
    py_min f0 = Some mn0 /\ py_max f0 = Some mx0 /\
    py_min f1 = Some mn1 /\ py_max f1 = Some mx1 /\
    b = (gt mn0 mx1 || lt mx0 mn1).
Proof.
  unfold separated.
  destruct (py_min f0) as [mn0|], (py_max f1) as [mx1|],
    (py_max f0) as [mx0|], (py_min f1) as [mn1|]; simpl; try done.
  intros [= <-]. by exists mn0, mx0, mn1, mx1.
Qed.

Lemma separated_nonempty (f0 f1 : list float64) b :
  separated f0 f1 = Some b -> f0 <> [] /\ f1 <> [].
Proof.
  intros (? & ? & ? & ? & H0 & _ & H1 & _)%separated_Some_inv.
  split; intros ->; discriminate.
Qed.

(** X1. The check returns a boolean exactly when the projection has one
    value per label and both classes occur among the labels; otherwise
    it raises (a mask of the wrong length, or [min] of an empty class). *)
Theorem separated_by_class_is_Some_iff (f : list float64) (y : list Z) :
  is_Some (separated_by_class f y) <->
  length f = length y /\ 0 ∈ y /\ 1 ∈ y.
Proof.
  split.
  - intros [b Hb]. unfold separated_by_class in Hb.
    destruct (mask_select f (labels_eq y 0)) as [f0|] eqn:Hf0; [|done].
    destruct (mask_select f (labels_eq y 1)) as [f1|] eqn:Hf1; [|done].
    simpl in Hb. apply separated_nonempty in Hb as [Hne0 Hne1].
    assert (Hin : forall c r, mask_select f (labels_eq y c) = Some r ->
              r <> [] -> c ∈ y).
    { intros c [|v r] Hr Hne; [done|].
      assert (v ∈ v :: r) as Hv by apply list_elem_of_here.
      apply (elem_of_class_partition f y c _ v Hr) in Hv as (i & _ & Hi).
      by eapply list_elem_of_lookup_2. }
    assert (H0 : 0 ∈ y) by eauto.
    split; [|split; eauto].
    apply mask_select_length in Hf0 as [Hnil|Hlen].
    + apply fmap_nil_inv in Hnil. subst y. by apply elem_of_nil in H0.
    + unfold labels_eq in Hlen. by rewrite length_fmap in Hlen.
  - intros (Hlen & H0 & H1). unfold separated_by_class.
    rewrite !mask_select_class_values by done. simpl.
    destruct (py_min_is_Some (class_values f y 0)) as [mn0 Hmn0];
      [by apply class_values_nonempty|].
    destruct (py_max_is_Some (class_values f y 0)) as [mx0 Hmx0];
      [by apply class_values_nonempty|].
    destruct (py_min_is_Some (class_values f y 1)) as [mn1 Hmn1];
      [by apply class_values_nonempty|].
    destruct (py_max_is_Some (class_values f y 1)) as [mx1 Hmx1];
      [by apply class_values_nonempty|].
    rewrite (separated_unfold _ _ _ _ _ _ Hmn0 Hmx0 Hmn1 Hmx1). by eexists.
Qed.

(** *** What [True] and [False] mean when NaN may occur *)

(** If the largest value of one array is below the smallest of another,
    every number of the first is below every number of the second. *)
Lemma max_below_min (lo hi : list float64) mx mn a c :
  py_max lo = Some mx -> py_min hi = Some mn -> lt mx mn = true ->
  a ∈ lo -> c ∈ hi -> isnan a = false -> isnan c = false ->
  lt a c = true.
Proof.
  intros Hmx Hmn Hlt Ha Hc Hna Hnc.
  apply (lt_nlt_trans a mn c); [done| |by apply (py_min_lower_bound hi)].
  apply (nlt_lt_trans a mx mn); [done| |done].
  by apply (py_max_upper_bound lo).
Qed.

(** X2. [True] is only printed when the numbers of the two classes are
    strictly ordered one way, NaN entries aside. *)
Theorem separated_true_sound (f0 f1 : list float64) :
  separated f0 f1 = Some true ->
  (forall a c, a ∈ f0 -> c ∈ f1 -> isnan a = false -> isnan c = false ->
     gt a c = true) \/
  (forall a c, a ∈ f0 -> c ∈ f1 -> isnan a = false -> isnan c = false ->
     lt a c = true).
Proof.
  intros (mn0 & mx0 & mn1 & mx1 & Hmn0 & Hmx0 & Hmn1 & Hmx1 & Hb)%separated_Some_inv.
  symmetry in Hb. apply orb_true_iff in Hb as [Hgt|Hlt]; [left|right];
    intros a c Ha Hc Hna Hnc.
  - unfold gt in *. by apply (max_below_min f1 f0 mx1 mn0).
  - by apply (max_below_min f0 f1 mx0 mn1).
Qed.

(** X3. Two classes that share a value are never reported separated. *)
Theorem shared_value_not_separated (f0 f1 : list float64) a c :
  a ∈ f0 -> c ∈ f1 -> eq a c = true ->
  separated f0 f1 = Some false.
Proof.
  intros Ha Hc Heq.
  destruct (py_min_is_Some f0) as [mn0 Hmn0]; [by intros ->; inversion Ha|].
  destruct (py_max_is_Some f0) as [mx0 Hmx0]; [by intros ->; inversion Ha|].
  destruct (py_min_is_Some f1) as [mn1 Hmn1]; [by intros ->; inversion Hc|].
  destruct (py_max_is_Some f1) as [mx1 Hmx1]; [by intros ->; inversion Hc|].
  rewrite (separated_unfold _ _ _ _ _ _ Hmn0 Hmx0 Hmn1 Hmx1). f_equal.
  pose proof (eq_not_nan_l _ _ Heq) as Hna.
  pose proof (eq_not_nan_r _ _ Heq) as Hnc.
  apply orb_false_iff. unfold gt. split.
  - destruct (lt mx1 mn0) eqn:Hlt; [|done].
    pose proof (max_below_min f1 f0 mx1 mn0 c a Hmx1 Hmn0 Hlt Hc Ha Hnc Hna) as H.
    by rewrite (eq_not_gt _ _ Heq) in H.
  - destruct (lt mx0 mn1) eqn:Hlt; [|done].
    pose proof (max_below_min f0 f1 mx0 mn1 a c Hmx0 Hmn1 Hlt Ha Hc Hna Hnc) as H.
    by rewrite (eq_not_lt _ _ Heq) in H.
Qed.

(** *** NaN-free values *)

(** For numbers, the check is the pointwise statement about the members
    of the two arrays. *)
Lemma separated_numbers (f0 f1 : list float64) b :
  Forall (fun v => isnan v = false) f0 ->
  Forall (fun v => isnan v = false) f1 ->
  separated f0 f1 = Some b ->
  b = true <->
    (forall a c, a ∈ f0 -> c ∈ f1 -> lt c a = true) \/
    (forall a c, a ∈ f0 -> c ∈ f1 -> lt a c = true).
Proof.
  rewrite !Forall_forall. intros Hn0 Hn1 Hsep.
  pose proof Hsep as
    (mn0 & mx0 & mn1 & mx1 & Hmn0 & Hmx0 & Hmn1 & Hmx1 & ->)%separated_Some_inv.
  rewrite orb_true_iff. unfold gt. split.
  - intros [Hlt|Hlt]; [left|right]; intros a c Ha Hc.
    + apply (max_below_min f1 f0 mx1 mn0); auto.
    + apply (max_below_min f0 f1 mx0 mn1); auto.
  - intros [Hall|Hall]; [left|right]; apply Hall;
      eauto using py_min_elem, py_max_elem.
Qed.

(** X4. For numbers, the result does not depend on the order of the
    samples within the classes. *)
Theorem separated_perm (f0 f0' f1 f1' : list float64) :
  Forall (fun v => isnan v = false) f0 ->
  Forall (fun v => isnan v = false) f1 ->
  f0 ≡ₚ f0' -> f1 ≡ₚ f1' ->
  separated f0' f1' = separated f0 f1.
Proof.
  intros Hn0 Hn1 Hp0 Hp1.
  destruct (separated f0 f1) as [b|] eqn:Hb,
           (separated f0' f1') as [b'|] eqn:Hb'.
  - f_equal. apply eq_true_iff_eq.
    rewrite (separated_numbers f0 f1 b Hn0 Hn1 Hb).
    rewrite (separated_numbers f0' f1' b'); [|by rewrite <- ?Hp0, <- ?Hp1..].
    by setoid_rewrite Hp0; setoid_rewrite Hp1.
  - exfalso. apply separated_nonempty in Hb as [H0 H1].
    assert (is_Some (separated f0' f1')) as [? ?]; [|congruence].
    destruct (py_min_is_Some f0') as [? Ha]; [by intros ->; apply H0, Permutation_nil_r|].
    destruct (py_max_is_Some f0') as [? Hb]; [by intros ->; apply H0, Permutation_nil_r|].
    destruct (py_min_is_Some f1') as [? Hc]; [by intros ->; apply H1, Permutation_nil_r|].
    destruct (py_max_is_Some f1') as [? Hd]; [by intros ->; apply H1, Permutation_nil_r|].
    rewrite (separated_unfold _ _ _ _ _ _ Ha Hb Hc Hd). by eexists.
  - exfalso. apply separated_nonempty in Hb' as [H0 H1].
    assert (is_Some (separated f0 f1)) as [? ?]; [|congruence].
    destruct (py_min_is_Some f0) as [? Ha]; [by intros ->; apply H0; symmetry; apply Permutation_nil_l|].
    destruct (py_max_is_Some f0) as [? Hb0]; [by intros ->; apply H0; symmetry; apply Permutation_nil_l|].
    destruct (py_min_is_Some f1) as [? Hc]; [by intros ->; apply H1; symmetry; apply Permutation_nil_l|].
    destruct (py_max_is_Some f1) as [? Hd]; [by intros ->; apply H1; symmetry; apply Permutation_nil_l|].
    rewrite (separated_unfold _ _ _ _ _ _ Ha Hb0 Hc Hd). by eexists.
  - done.
Qed.

(** *** The two classes play the same part *)

Lemma separated_comm (f0 f1 : list float64) :
  separated f1 f0 = separated f0 f1.
Proof.
  unfold separated.
  destruct (py_min f0) as [mn0|], (py_max f1) as [mx1|],
    (py_max f0) as [mx0|], (py_min f1) as [mn1|]; simpl; try done.
  unfold gt. by rewrite orb_comm.
Qed.

(** X6. Exchanging the labels 0 and 1 does not change the result. *)
Theorem separated_by_class_swap (f : list float64) (y : list Z) :
  separated_by_class f ((fun v => 1 - v) <$> y) = separated_by_class f y.
Proof.
  unfold separated_by_class.
  assert (H0 : labels_eq ((fun v => 1 - v) <$> y) 0 = labels_eq y 1).
  { unfold labels_eq. rewrite <- list_fmap_compose. apply list_fmap_ext.
    intros _ v _. simpl. destruct (Z.eqb_spec (1 - v) 0), (Z.eqb_spec v 1); lia. }
  assert (H1 : labels_eq ((fun v => 1 - v) <$> y) 1 = labels_eq y 0).
  { unfold labels_eq. rewrite <- list_fmap_compose. apply list_fmap_ext.
    intros _ v _. simpl. destruct (Z.eqb_spec (1 - v) 1), (Z.eqb_spec v 0); lia. }
  rewrite H0, H1.
  destruct (mask_select f (labels_eq y 1)) as [f1|] eqn:Hf1,
           (mask_select f (labels_eq y 0)) as [f0|] eqn:Hf0; simpl; try done.
  apply separated_comm.
Qed.

(** *** NaN among the values *)

Lemma foldl_min_nan rest : foldl min_step S754_nan rest = S754_nan.
Proof.
  induction rest as [|y rest IH]; [done|]. simpl.
  unfold min_step at 2. by rewrite lt_nan_r.
Qed.

Lemma foldl_max_nan rest : foldl max_step S754_nan rest = S754_nan.
Proof.
  induction rest as [|y rest IH]; [done|]. simpl.
  unfold max_step at 2. unfold gt. by rewrite lt_nan_l.
Qed.

(** X7. When the first value of a class is NaN, [min] and [max] of that
    class are NaN and the check prints [False], whatever the other
    values are. *)
Theorem nan_first_not_separated (f0 f1 : list float64) :
  f0 <> [] -> f1 <> [] ->
  head f0 = Some S754_nan \/ head f1 = Some S754_nan ->
  separated f0 f1 = Some false.
Proof.
  intros H0 H1 Hnan.
  destruct f0 as [|x r0]; [done|]. destruct f1 as [|z r1]; [done|].
  unfold separated, gt. simpl in *.
  destruct Hnan as [[= ->]|[= ->]];
    rewrite ?foldl_min_nan, ?foldl_max_nan, ?lt_nan_l, ?lt_nan_r; done.
Qed.

Lemma foldl_min_numbers x rest :
  foldl min_step x (filter (fun v => isnan v = false) rest)
  = foldl min_step x rest.
Proof.
  revert x; induction rest as [|y rest IH]; intros x; [done|].
  rewrite filter_cons. simpl. case_decide as Hy.
  - apply IH.
  - rewrite IH. f_equal. by destruct y.
Qed.

Lemma foldl_max_numbers x rest :
  foldl max_step x (filter (fun v => isnan v = false) rest)
  = foldl max_step x rest.
Proof.
  revert x; induction rest as [|y rest IH]; intros x; [done|].
  rewrite filter_cons. simpl. case_decide as Hy.
  - apply IH.
  - rewrite IH. f_equal. destruct y; try done. unfold max_step, gt.
    by rewrite lt_nan_r.
Qed.

(** X8. NaN values after the first value of a class are skipped: removing
    them does not change the result. *)
Theorem nan_later_ignored (x z : float64) (r0 r1 : list float64) :
  separated (x :: filter (fun v => isnan v = false) r0)
            (z :: filter (fun v => isnan v = false) r1)
  = separated (x :: r0) (z :: r1).
Proof.
  unfold separated. simpl.
  by rewrite !foldl_min_numbers, !foldl_max_numbers.
Qed.

(** *** The partition by label *)

Lemma select_where_cover (f f0 f1 : list float64) (y : list Z) :
  Forall (fun v => v = 0 \/ v = 1) y ->
  select_where f (labels_eq y 0) = Some f0 ->
  select_where f (labels_eq y 1) = Some f1 ->
  f0 ++ f1 ≡ₚ f.
Proof.
  intros Hy. revert f f0 f1.
  induction Hy as [|v y Hv _ IH]; intros [|x f] f0 f1; simpl; try done.
  - by intros [= <-] [= <-].
  - destruct (select_where f (labels_eq y 0)) as [r0|] eqn:Hr0; [|done].
    destruct (select_where f (labels_eq y 1)) as [r1|] eqn:Hr1; [|done].
    simpl. intros [= <-] [= <-]. specialize (IH f r0 r1 Hr0 Hr1).
    destruct Hv as [-> | ->]; simpl.
    + by constructor.
    + rewrite <- Permutation_middle. by constructor.
Qed.

(** X9. When the projection has one value per label and every label is 0
    or 1, the two class partitions [f0 = f[y == 0]] and [f1 = f[y == 1]]
    together hold every projected value exactly once.  (With no labels
    at all both partitions are empty whatever [f] holds, so the lengths
    have to agree.) *)
Theorem class_partitions_cover (f f0 f1 : list float64) (y : list Z) :
  length f = length y ->
  Forall (fun v => v = 0 \/ v = 1) y ->
  mask_select f (labels_eq y 0) = Some f0 ->
  mask_select f (labels_eq y 1) = Some f1 ->
  f0 ++ f1 ≡ₚ f.
Proof.
  intros Hlen Hy.
  rewrite !mask_select_aligned
    by (unfold labels_eq; by rewrite length_fmap).
  by apply select_where_cover.
Qed.

(** An empty label vector selects nothing, whatever is projected. *)
Example empty_mask_selects_nothing :
  mask_select [Sample.num 1; Sample.num 2] (labels_eq [] 0) = Some [].
Proof. reflexivity. Qed.

(** *** [min] and [max] on numbers *)

(** X10. On a non-empty array of numbers, [min] and [max] return members
    of the array, and every member lies between them. *)
Theorem py_min_max_bounds (xs : list float64) :
  xs <> [] ->
  Forall (fun v => isnan v = false) xs ->
  exists mn mx,
    py_min xs = Some mn /\ py_max xs = Some mx /\
    mn ∈ xs /\ mx ∈ xs /\
    forall v, v ∈ xs -> SFleb mn v = true /\ SFleb v mx = true.
Proof.
  intros Hne Hnum. rewrite Forall_forall in Hnum.
  destruct (py_min_is_Some xs Hne) as [mn Hmn].
  destruct (py_max_is_Some xs Hne) as [mx Hmx].
  exists mn, mx. do 2 (split; [done|]).
  pose proof (py_min_elem _ _ Hmn) as Hin.
  pose proof (py_max_elem _ _ Hmx) as Hax.
  do 2 (split; [done|]).
  intros v Hv. split.
  - apply nlt_le; auto. by apply (py_min_lower_bound xs).
  - apply nlt_le; auto. by apply (py_max_upper_bound xs).
Qed.

End CheckFacts.

(** ** More about the session *)

Module SessionFacts.
Import Float64 Py Notebook Properties NotebookFacts.

#[local] Arguments run : simpl never.

Lemma assign_Some x v s u s' :
  assign x v s = Some (u, s') ->
  s' = {| heap := heap s; env := <[x := v]> (env s);
          stdout := stdout s; calls := calls s |}.
Proof. by intros [= _ <-]. Qed.

Lemma print_Some label v s u s' :
  print label v s = Some (u, s') ->
  s' = {| heap := heap s; env := env s;
          stdout := stdout s ++ [(label, v)]; calls := calls s |}.
Proof. by intros [= _ <-]. Qed.

Lemma alloc_Some a s l s' :
  alloc a s = Some (l, s') ->
  l = fresh (dom (heap s)) /\
  s' = {| heap := <[fresh (dom (heap s)) := a]> (heap s); env := env s;
          stdout := stdout s; calls := calls s |}.
Proof. by intros [= <- <-]. Qed.

(** Inversion of a statement, state by state. *)
Ltac inv_stmt :=
  repeat match goal with
  | H : (_ ≫= _) _ = Some _ |- _ => apply bind_Some in H as (? & ? & ? & H)
  | H : lookup_name _ _ = Some _ |- _ => apply lookup_name_Some in H as [? ->]
  | H : lift _ _ = Some _ |- _ => apply lift_Some in H as [? ->]
  | H : read _ _ = Some _ |- _ => apply read_Some in H as [? ->]
  | H : @mret M _ _ _ _ = Some _ |- _ => apply ret_Some in H as [_ ->]
  | H : call _ _ = Some _ |- _ => apply call_Some in H as (? & ? & ->)
  | H : as_array _ = Some _ |- _ => apply as_array_Some in H as ->
  | H : as_estimator _ = Some _ |- _ => apply as_estimator_Some in H as ->
  | H : as_pair _ = Some _ |- _ => apply as_pair_Some in H as ->
  | H : getitem _ "data" = Some _ |- _ =>
      apply getitem_data_Some in H as (? & ? & -> & ->)
  | H : getitem _ "target" = Some _ |- _ =>
      apply getitem_target_Some in H as (? & ? & -> & ->)
  | H : assign _ _ _ = Some _ |- _ => apply assign_Some in H as ->
  | H : print _ _ _ = Some _ |- _ => apply print_Some in H as ->
  | H : alloc _ _ = Some _ |- _ => apply alloc_Some in H as [-> ->]
  end.

(** Look names up in an environment given as a chain of bindings. *)
Ltac resolve_lookups :=
  repeat match goal with
  | H : context [env (State _ _ _ _)] |- _ => progress cbn [env] in H
  | H : context [heap (State _ _ _ _)] |- _ => progress cbn [heap] in H
  | H : <[?k := _]> _ !! ?k = Some _ |- _ =>
      rewrite lookup_insert_eq in H; apply (inj Some) in H;
      try (injection H as H); subst
  | H : <[_ := _]> _ !! _ = Some _ |- _ =>
      rewrite lookup_insert_ne in H by discriminate
  end.

(** Run the next statement of [H : run (st :: rest) s = Some s'], keeping
    the state in normal form. *)
Ltac exec H :=
  let Hst := fresh "Hst" in
  apply run_cons_Some in H as (? & Hst & H); revert H;
  unfold_stmts Hst; inv_stmt; cbn [env heap stdout calls app];
  resolve_lookups; intros H.

(** The array read out of the heap is of the kind the statement needs. *)
Ltac inv_ndarray :=
  repeat match goal with
  | H : match ?a with _ => _ end = Some _ |- _ =>
      destruct a; try discriminate H; injection H as ->
  end.

Section S.
Context `{Library}.

Lemma dot_with_coef_row_intro m lcoef rows w a (h h' : gmap loc ndarray) v :
  coef_ m = Some lcoef ->
  h !! lcoef = Some (Float2D rows) ->
  rows !! 0%nat = Some w ->
  lib_call (np_dot a (fresh (dom h))) (<[fresh (dom h) := Float1D w]> h)
    = Some (h', v) ->
  dot_with_coef_row m a (fresh (dom h)).
Proof.
  intros Hcoef Hrows Hw Hcall.
  exists lcoef, rows, w, (<[fresh (dom h) := Float1D w]> h), h', v.
  split; [done|]. split.
  { eapply lookup_weaken; [done|apply insert_fresh_subseteq]. }
  split; [done|]. split; [apply lookup_insert_eq|done].
Qed.

(** A completed run, statement by statement: what was called, with which
    arguments, and where each result went. *)
Lemma notebook_inv s :
  run notebook init = Some s ->
  exists Xc yc Xw yw mb mm mp ml yh1 ph1 a1 yh2 ph2 a2 lw0 lw1 l0 l1 b ax,
    stdout s =
      [ ("Training accuracy: "%string, a1);
        ("Training accuracy: "%string, a2);
        ("Separated:"%string, VBool b) ] /\
    calls s =
      [ load_breast_cancer; load_wine;
        fit {| params := binary_params; coef_ := None |} Xc yc;
        predict mb Xc; predict_proba mb Xc; score mb Xc yc;
        fit {| params := multiclass_params; coef_ := None |} Xw yw;
        predict mm Xw; predict_proba mm Xw; score mm Xw yw;
        fit {| params := Perceptron; coef_ := None |} Xc yc;
        fit {| params := LinearDiscriminantAnalysis 1; coef_ := None |} Xc yc;
        np_dot Xc lw0; np_dot Xc lw1;
        plotting "plt.subplots" [];
        plotting "sns.distplot" [VArray l0];
        plotting "sns.distplot" [VArray l1];
        plotting "ax.set_xlabel" [ax]; plotting "ax.set_title" [ax];
        plotting "ax.legend" [ax]; plotting "sns.despine" [] ] /\
    (env s !! "X_cancer"%string = Some (VArray Xc) /\
     env s !! "y_cancer"%string = Some (VArray yc) /\
     env s !! "X_wine"%string = Some (VArray Xw) /\
     env s !! "y_wine"%string = Some (VArray yw) /\
     env s !! "binary_model"%string = Some (VEstimator mb) /\
     env s !! "multiclass_model"%string = Some (VEstimator mm) /\
     env s !! "perceptron"%string = Some (VEstimator mp) /\
     env s !! "lda"%string = Some (VEstimator ml) /\
     env s !! "y_hats"%string = Some yh2 /\
     env s !! "p_hats"%string = Some ph2 /\
     env s !! "f0"%string = Some (VArray l0) /\
     env s !! "f1"%string = Some (VArray l1)) /\
    returns load_breast_cancer (VBunch Xc yc) /\
    returns load_wine (VBunch Xw yw) /\
    returns (fit {| params := binary_params; coef_ := None |} Xc yc)
      (VEstimator mb) /\
    returns (predict mb Xc) yh1 /\
    returns (predict_proba mb Xc) ph1 /\
    returns (score mb Xc yc) a1 /\
    returns (fit {| params := multiclass_params; coef_ := None |} Xw yw)
      (VEstimator mm) /\
    returns (predict mm Xw) yh2 /\
    returns (predict_proba mm Xw) ph2 /\
    returns (score mm Xw yw) a2 /\
    returns (fit {| params := Perceptron; coef_ := None |} Xc yc)
      (VEstimator mp) /\
    returns (fit {| params := LinearDiscriminantAnalysis 1; coef_ := None |}
               Xc yc) (VEstimator ml) /\
    dot_with_coef_row ml Xc lw0 /\
    dot_with_coef_row ml Xc lw1 /\
    (exists fig, returns (plotting "plt.subplots" []) (VPair fig ax)).
Proof.
  unfold notebook, after_load, cell_load, cell_binary_fit, cell_binary_predict,
    cell_multiclass_fit, cell_multiclass_predict, cell_perceptron,
    cell_lda, cell_plot. simpl app. intros Hrun.
  do 30 exec Hrun. apply run_nil_Some in Hrun as ->.
  cbn [env heap stdout calls].
  do 20 eexists.
  split; [reflexivity|]. split; [reflexivity|].
  split.
  { repeat split;
      repeat first [ apply lookup_insert_eq
                   | rewrite lookup_insert_ne by done ]. }
  do 12 (split; [by do 2 eexists|]).
  inv_ndarray.
  split; [|split].
  - eapply dot_with_coef_row_intro; [| | |eassumption];
      [|eassumption|]; eassumption.
  - eapply dot_with_coef_row_intro; [| | |eassumption];
      [|eassumption|]; eassumption.
  - eexists. by do 2 eexists.
Qed.

(** X12. A completed run prints exactly three lines: the value [score]
    returned for the fitted binary model on dataset A, the value it
    returned for the fitted multiclass model on dataset B, and one
    boolean. *)
Theorem session_stdout s :
  run notebook init = Some s ->
  exists Xc yc Xw yw mb mm a1 a2 b,
    returns load_breast_cancer (VBunch Xc yc) /\
    returns load_wine (VBunch Xw yw) /\
    returns (fit {| params := binary_params; coef_ := None |} Xc yc)
      (VEstimator mb) /\
    returns (score mb Xc yc) a1 /\
    returns (fit {| params := multiclass_params; coef_ := None |} Xw yw)
      (VEstimator mm) /\
    returns (score mm Xw yw) a2 /\
    stdout s =
      [ ("Training accuracy: "%string, a1);
        ("Training accuracy: "%string, a2);
        ("Separated:"%string, VBool b) ].
Proof.
  intros (Xc & yc & Xw & yw & mb & mm & mp & ml & yh1 & ph1 & a1 & yh2 &
          ph2 & a2 & lw0 & lw1 & l0 & l1 & b & ax & Hout & _ & _ &
          HA & HB & Hfb & _ & _ & Hsb & Hfm & _ & _ & Hsm & _)%notebook_inv.
  by exists Xc, yc, Xw, yw, mb, mm, a1, a2, b.
Qed.

(** X13. The library calls of a completed run, in order: the two loaders;
    fit, predict, predict_proba and score of the binary model on
    dataset A; the same four of the multiclass model on dataset B; the
    fits of the perceptron and of the discriminant on dataset A; two
    products of the feature matrix of dataset A with an array that
    holds row 0 of the fitted discriminant's [coef_]; seven plotting
    calls, the two histograms on the arrays bound to [f0] and [f1] and
    the three axis calls on the axes that [plt.subplots] returned.
    Dataset A is the pair of arrays that [load_breast_cancer] returned
    and [X_cancer], [y_cancer] are bound to, dataset B the pair that
    [load_wine] returned and [X_wine], [y_wine] are bound to; the
    estimator queried is always the one its fit returned. *)
Theorem session_calls s :
  run notebook init = Some s ->
  exists Xc yc Xw yw mb mm ml lw0 lw1 l0 l1 fig ax,
    returns load_breast_cancer (VBunch Xc yc) /\
    returns load_wine (VBunch Xw yw) /\
    (env s !! "X_cancer"%string = Some (VArray Xc) /\
     env s !! "y_cancer"%string = Some (VArray yc) /\
     env s !! "X_wine"%string = Some (VArray Xw) /\
     env s !! "y_wine"%string = Some (VArray yw)) /\
    returns (fit {| params := binary_params; coef_ := None |} Xc yc)
      (VEstimator mb) /\
    returns (fit {| params := multiclass_params; coef_ := None |} Xw yw)
      (VEstimator mm) /\
    returns (fit {| params := LinearDiscriminantAnalysis 1; coef_ := None |}
               Xc yc) (VEstimator ml) /\
    dot_with_coef_row ml Xc lw0 /\
    dot_with_coef_row ml Xc lw1 /\
    env s !! "f0"%string = Some (VArray l0) /\
    env s !! "f1"%string = Some (VArray l1) /\
    returns (plotting "plt.subplots" []) (VPair fig ax) /\
    calls s =
      [ load_breast_cancer; load_wine;
        fit {| params := binary_params; coef_ := None |} Xc yc;
        predict mb Xc; predict_proba mb Xc; score mb Xc yc;
        fit {| params := multiclass_params; coef_ := None |} Xw yw;
        predict mm Xw; predict_proba mm Xw; score mm Xw yw;
        fit {| params := Perceptron; coef_ := None |} Xc yc;
        fit {| params := LinearDiscriminantAnalysis 1; coef_ := None |} Xc yc;
        np_dot Xc lw0; np_dot Xc lw1;
        plotting "plt.subplots" [];
        plotting "sns.distplot" [VArray l0];
        plotting "sns.distplot" [VArray l1];
        plotting "ax.set_xlabel" [ax]; plotting "ax.set_title" [ax];
        plotting "ax.legend" [ax]; plotting "sns.despine" [] ].
Proof.
  intros (Xc & yc & Xw & yw & mb & mm & mp & ml & yh1 & ph1 & a1 & yh2 &
          ph2 & a2 & lw0 & lw1 & l0 & l1 & b & ax & _ & Hcalls & Henv &
          HA & HB & Hfb & _ & _ & _ & Hfm & _ & _ & _ & _ & Hfl &
          Hd0 & Hd1 & fig & Hax)%notebook_inv.
  destruct Henv as (HXc & Hyc & HXw & Hyw & _ & _ & _ & _ & _ & _ & Hf0 & Hf1).
  by exists Xc, yc, Xw, yw, mb, mm, ml, lw0, lw1, l0, l1, fig, ax.
Qed.

(** X14. [y_hats] and [p_hats] are assigned twice; at the end of a run they
    hold what [predict] and [predict_proba] of the fitted multiclass
    model returned for the feature matrix of dataset B. *)
Theorem final_predictions_are_multiclass s :
  run notebook init = Some s ->
  exists Xw yw mm yh ph,
    returns load_wine (VBunch Xw yw) /\
    returns (fit {| params := multiclass_params; coef_ := None |} Xw yw)
      (VEstimator mm) /\
    returns (predict mm Xw) yh /\
    returns (predict_proba mm Xw) ph /\
    env s !! "y_hats"%string = Some yh /\
    env s !! "p_hats"%string = Some ph.
Proof.
  intros (Xc & yc & Xw & yw & mb & mm & mp & ml & yh1 & ph1 & a1 & yh2 &
          ph2 & a2 & lw0 & lw1 & l0 & l1 & b & ax & _ & _ & Henv &
          _ & HB & _ & _ & _ & _ & Hfm & Hyh & Hph & _)%notebook_inv.
  destruct Henv as (_ & _ & _ & _ & _ & _ & _ & _ & Hy & Hp & _).
  by exists Xw, yw, mm, yh2, ph2.
Qed.

(** X15. Each estimator is fitted once, on the arrays its loader returned,
    and its name ends bound to the estimator that fit returned: the
    perceptron and the discriminant on dataset A like the binary model,
    the multiclass model on dataset B. *)
Theorem estimators_fitted_once s :
  run notebook init = Some s ->
  exists Xc yc Xw yw mb mm mp ml,
    returns load_breast_cancer (VBunch Xc yc) /\
    returns load_wine (VBunch Xw yw) /\
    returns (fit {| params := binary_params; coef_ := None |} Xc yc)
      (VEstimator mb) /\
    returns (fit {| params := multiclass_params; coef_ := None |} Xw yw)
      (VEstimator mm) /\
    returns (fit {| params := Perceptron; coef_ := None |} Xc yc)
      (VEstimator mp) /\
    returns (fit {| params := LinearDiscriminantAnalysis 1; coef_ := None |}
               Xc yc) (VEstimator ml) /\
    env s !! "binary_model"%string = Some (VEstimator mb) /\
    env s !! "multiclass_model"%string = Some (VEstimator mm) /\
    env s !! "perceptron"%string = Some (VEstimator mp) /\
    env s !! "lda"%string = Some (VEstimator ml) /\
    List.filter (fun c => match c with fit _ _ _ => true | _ => false end)
      (calls s) =
      [ fit {| params := binary_params; coef_ := None |} Xc yc;
        fit {| params := multiclass_params; coef_ := None |} Xw yw;
        fit {| params := Perceptron; coef_ := None |} Xc yc;
        fit {| params := LinearDiscriminantAnalysis 1; coef_ := None |} Xc yc ].
Proof.
  intros (Xc & yc & Xw & yw & mb & mm & mp & ml & yh1 & ph1 & a1 & yh2 &
          ph2 & a2 & lw0 & lw1 & l0 & l1 & b & ax & _ & Hcalls & Henv &
          HA & HB & Hfb & _ & _ & _ & Hfm & _ & _ & _ & Hfp & Hfl & _)%notebook_inv.
  destruct Henv as (_ & _ & _ & _ & Hb & Hm & Hp & Hl & _).
  exists Xc, yc, Xw, yw, mb, mm, mp, ml.
  do 10 (split; [done|]). by rewrite Hcalls.
Qed.

(** *** The dataset names *)

(** X16. The notebook never assigns to [X_cancer], [y_cancer], [X_wine] or
    [y_wine] after the load cell: whatever the library does, at every
    point of a run after that cell each of the four names refers to the
    array object it was bound to there, the [data] or the [target] of
    the Bunch that [load_breast_cancer], respectively [load_wine],
    returned. *)
Theorem dataset_names_never_rebound pre s :
  pre `prefix_of` after_load ->
  run (cell_load ++ pre) init = Some s ->
  exists hA hB Xc yc Xw yw,
    lib_call load_breast_cancer (heap init) = Some (hA, VBunch Xc yc) /\
    lib_call load_wine hA = Some (hB, VBunch Xw yw) /\
    env s !! "X_cancer"%string = Some (VArray Xc) /\
    env s !! "y_cancer"%string = Some (VArray yc) /\
    env s !! "X_wine"%string = Some (VArray Xw) /\
    env s !! "y_wine"%string = Some (VArray yw).
Proof.
  intros [rest Hpre] (s1 & Hload & Hrun)%run_app_Some.
  pose proof after_load_keeps_each as Hall. rewrite Hpre in Hall.
  apply Forall_app in Hall as [Hall _].
  pose proof (run_respects keeps _ _ _ Hall Hrun) as Hkeeps.
  apply cell_load_inv in Hload
    as (hA & hB & Xc & yc & Xw & yw & HcA & HcB & ->).
  exists hA, hB, Xc, yc, Xw, yw. do 2 (split; [done|]).
  rewrite !Hkeeps by by apply dataset_name_elem.
  cbn [env]. repeat split; by simplify_map_eq.
Qed.

End S.
End SessionFacts.
(** ** Further statements at the sample library *)

Module MoreWitnesses.
Import Float64 Py Notebook Properties Sample SampleFacts.
Import NotebookFacts CheckFacts SessionFacts.

Lemma separated_true_sound_witness :
  (forall a c, a ∈ [num 5; num 7] -> c ∈ [num 1; num 4] ->
     isnan a = false -> isnan c = false -> gt a c = true) \/
  (forall a c, a ∈ [num 5; num 7] -> c ∈ [num 1; num 4] ->
     isnan a = false -> isnan c = false -> lt a c = true).
Proof.
  apply (separated_true_sound [num 5; num 7] [num 1; num 4]). reflexivity.
Defined.

Lemma shared_value_not_separated_witness :
  separated [num 1; num 3] [num 5; num 3; num 4] = Some false.
Proof.
  apply (shared_value_not_separated
           [num 1; num 3] [num 5; num 3; num 4] (num 3) (num 3)).
  - apply list_elem_of_further, list_elem_of_here.
  - apply list_elem_of_further, list_elem_of_here.
  - reflexivity.
Defined.

Lemma separated_perm_witness :
  separated [num 2; num 1] [num 6; num 4] = separated [num 1; num 2] [num 4; num 6].
Proof.
  apply (separated_perm [num 1; num 2] [num 2; num 1] [num 4; num 6] [num 6; num 4]).
  - repeat constructor.
  - repeat constructor.
  - apply perm_swap.
  - apply perm_swap.
Defined.

Lemma nan_first_not_separated_witness :
  separated [S754_nan; num 1] [num 0] = Some false.
Proof.
  apply (nan_first_not_separated [S754_nan; num 1] [num 0]).
  - discriminate.
  - discriminate.
  - left. reflexivity.
Defined.

Lemma class_partitions_cover_witness :
  [num 1; num 2] ++ [num 4; num 6] ≡ₚ [num 1; num 4; num 2; num 6].
Proof.
  apply (class_partitions_cover
           [num 1; num 4; num 2; num 6] [num 1; num 2] [num 4; num 6] y_a).
  - reflexivity.
  - unfold y_a. repeat (constructor; [first [by left | by right]|]).
    constructor.
  - reflexivity.
  - reflexivity.
Defined.

Lemma py_min_max_bounds_witness :
  exists mn mx,
    py_min [num 3; num 1; num 2] = Some mn /\
    py_max [num 3; num 1; num 2] = Some mx /\
    mn ∈ [num 3; num 1; num 2] /\ mx ∈ [num 3; num 1; num 2] /\
    forall v, v ∈ [num 3; num 1; num 2] ->
      SFleb mn v = true /\ SFleb v mx = true.
Proof.
  apply (py_min_max_bounds [num 3; num 1; num 2]).
  - discriminate.
  - repeat constructor.
Defined.

Lemma notebook_prints_separated_witness :
  exists lX ly X y ml lcoef rows w lw h h' lf f l0 l1 f0 f1 b,
    returns (H := library) load_breast_cancer (VBunch lX ly) /\
    (env at_end !! "X_cancer"%string = Some (VArray lX) /\
     heap at_end !! lX = Some (Float2D X)) /\
    (env at_end !! "y_cancer"%string = Some (VArray ly) /\
     heap at_end !! ly = Some (Int1D y)) /\
    returns (H := library)
      (fit {| params := LinearDiscriminantAnalysis 1; coef_ := None |}
         lX ly) (VEstimator ml) /\
    (env at_end !! "lda"%string = Some (VEstimator ml) /\
     coef_ ml = Some lcoef /\
     heap at_end !! lcoef = Some (Float2D rows) /\
     rows !! 0%nat = Some w) /\
    (h !! lX = Some (Float2D X) /\
     h !! lw = Some (Float1D w) /\
     lib_call (Library := library) (np_dot lX lw) h = Some (h', VArray lf) /\
     h' !! lf = Some (Float1D f)) /\
    (env at_end !! "f0"%string = Some (VArray l0) /\
     heap at_end !! l0 = Some (Float1D f0) /\
     mask_select f (labels_eq y 0) = Some f0) /\
    (env at_end !! "f1"%string = Some (VArray l1) /\
     heap at_end !! l1 = Some (Float1D f1) /\
     mask_select f (labels_eq y 1) = Some f1) /\
    separated f0 f1 = Some b /\
    separated_by_class f y = Some b /\
    last (stdout at_end) = Some ("Separated:"%string, VBool b).
Proof.
  apply (notebook_prints_separated (H := library) at_end
           library_read_only library_dot_functional
           load_breast_cancer_dataset).
  vm_compute. reflexivity.
Defined.

Lemma session_stdout_witness :
  exists Xc yc Xw yw mb mm a1 a2 b,
    returns (H := library) load_breast_cancer (VBunch Xc yc) /\
    returns (H := library) load_wine (VBunch Xw yw) /\
    returns (H := library)
      (fit {| params := binary_params; coef_ := None |} Xc yc)
      (VEstimator mb) /\
    returns (H := library) (score mb Xc yc) a1 /\
    returns (H := library)
      (fit {| params := multiclass_params; coef_ := None |} Xw yw)
      (VEstimator mm) /\
    returns (H := library) (score mm Xw yw) a2 /\
    stdout at_end =
      [ ("Training accuracy: "%string, a1);
        ("Training accuracy: "%string, a2);
        ("Separated:"%string, VBool b) ].
Proof.
  apply (session_stdout (H := library) at_end). vm_compute. reflexivity.
Defined.

Lemma session_calls_witness :
  exists Xc yc Xw yw mb mm ml lw0 lw1 l0 l1 fig ax,
    returns (H := library) load_breast_cancer (VBunch Xc yc) /\
    returns (H := library) load_wine (VBunch Xw yw) /\
    (env at_end !! "X_cancer"%string = Some (VArray Xc) /\
     env at_end !! "y_cancer"%string = Some (VArray yc) /\
     env at_end !! "X_wine"%string = Some (VArray Xw) /\
     env at_end !! "y_wine"%string = Some (VArray yw)) /\
    returns (H := library)
      (fit {| params := binary_params; coef_ := None |} Xc yc)
      (VEstimator mb) /\
    returns (H := library)
      (fit {| params := multiclass_params; coef_ := None |} Xw yw)
      (VEstimator mm) /\
    returns (H := library)
      (fit {| params := LinearDiscriminantAnalysis 1; coef_ := None |}
         Xc yc) (VEstimator ml) /\
    dot_with_coef_row (H := library) ml Xc lw0 /\
    dot_with_coef_row (H := library) ml Xc lw1 /\
    env at_end !! "f0"%string = Some (VArray l0) /\
    env at_end !! "f1"%string = Some (VArray l1) /\
    returns (H := library) (plotting "plt.subplots" []) (VPair fig ax) /\
    calls at_end =
      [ load_breast_cancer; load_wine;
        fit {| params := binary_params; coef_ := None |} Xc yc;
        predict mb Xc; predict_proba mb Xc; score mb Xc yc;
        fit {| params := multiclass_params; coef_ := None |} Xw yw;
        predict mm Xw; predict_proba mm Xw; score mm Xw yw;
        fit {| params := Perceptron; coef_ := None |} Xc yc;
        fit {| params := LinearDiscriminantAnalysis 1; coef_ := None |} Xc yc;
        np_dot Xc lw0; np_dot Xc lw1;
        plotting "plt.subplots" [];
        plotting "sns.distplot" [VArray l0];
        plotting "sns.distplot" [VArray l1];
        plotting "ax.set_xlabel" [ax]; plotting "ax.set_title" [ax];
        plotting "ax.legend" [ax]; plotting "sns.despine" [] ].
Proof.
  apply (session_calls (H := library) at_end). vm_compute. reflexivity.
Defined.

Lemma final_predictions_are_multiclass_witness :
  exists Xw yw mm yh ph,
    returns (H := library) load_wine (VBunch Xw yw) /\
    returns (H := library)
      (fit {| params := multiclass_params; coef_ := None |} Xw yw)
      (VEstimator mm) /\
    returns (H := library) (predict mm Xw) yh /\
    returns (H := library) (predict_proba mm Xw) ph /\
    env at_end !! "y_hats"%string = Some yh /\
    env at_end !! "p_hats"%string = Some ph.
Proof.
  apply (final_predictions_are_multiclass (H := library) at_end).
  vm_compute. reflexivity.
Defined.

Lemma estimators_fitted_once_witness :
  exists Xc yc Xw yw mb mm mp ml,
    returns (H := library) load_breast_cancer (VBunch Xc yc) /\
    returns (H := library) load_wine (VBunch Xw yw) /\
    returns (H := library)
      (fit {| params := binary_params; coef_ := None |} Xc yc)
      (VEstimator mb) /\
    returns (H := library)
      (fit {| params := multiclass_params; coef_ := None |} Xw yw)
      (VEstimator mm) /\
    returns (H := library)
      (fit {| params := Perceptron; coef_ := None |} Xc yc)
      (VEstimator mp) /\
    returns (H := library)
      (fit {| params := LinearDiscriminantAnalysis 1; coef_ := None |}
         Xc yc) (VEstimator ml) /\
    env at_end !! "binary_model"%string = Some (VEstimator mb) /\
    env at_end !! "multiclass_model"%string = Some (VEstimator mm) /\
    env at_end !! "perceptron"%string = Some (VEstimator mp) /\
    env at_end !! "lda"%string = Some (VEstimator ml) /\
    List.filter (fun c => match c with fit _ _ _ => true | _ => false end)
      (calls at_end) =
      [ fit {| params := binary_params; coef_ := None |} Xc yc;
        fit {| params := multiclass_params; coef_ := None |} Xw yw;
        fit {| params := Perceptron; coef_ := None |} Xc yc;
        fit {| params := LinearDiscriminantAnalysis 1; coef_ := None |} Xc yc ].
Proof.
  apply (estimators_fitted_once (H := library) at_end).
  vm_compute. reflexivity.
Defined.

Lemma dataset_names_never_rebound_witness :
  exists hA hB Xc yc Xw yw,
    lib_call (Library := library) load_breast_cancer (heap init)
      = Some (hA, VBunch Xc yc) /\
    lib_call (Library := library) load_wine hA = Some (hB, VBunch Xw yw) /\
    env at_end !! "X_cancer"%string = Some (VArray Xc) /\
    env at_end !! "y_cancer"%string = Some (VArray yc) /\
    env at_end !! "X_wine"%string = Some (VArray Xw) /\
    env at_end !! "y_wine"%string = Some (VArray yw).
Proof.
  apply (dataset_names_never_rebound (H := library)
           (after_load (H := library)) at_end).
  - reflexivity.
  - vm_compute. reflexivity.
Defined.

End MoreWitnesses.
